(** * The notebook cell component of the native editor

    A shallow embedding of [src/datascience-ui/native-editor/nativeCell.tsx]
    (the React component [NativeCell]) and of
    [src/client/datascience/jupyter/jupyterDebuggerNotInstalledError.ts].

    The component is a class with three pieces of mutable state (two refs and
    the last key pressed) whose handlers call action creators received as
    props.  Handlers are embedded in a small writer/state monad: the state is
    [lastKeyPressed], the log is the sequence of calls made on the event
    ([stopPropagation], [preventDefault]), on the DOM and on the action
    creators. *)

From Stdlib Require Import Bool List String ZArith PeanoNat.
From Stdlib Require Import DecimalString.
Import ListNotations.

Open Scope string_scope.
Open Scope list_scope.

(* ===================================================================== *)
(** * JavaScript values and the deep comparison used by the component *)
(* ===================================================================== *)

Module JS.

(** Props are plain JavaScript data.  Numbers are the integers together
    with [NaN] (the one number that is not identical to itself); functions
    (the action creators) are known by their reference only; an object is
    the list of its own enumerable properties in [Object.keys] order. *)
#[warnings="-register-all"]
Inductive Value : Type :=
| Undefined
| Null
| Bool (b : bool)
| Number (n : Z)
| NaN
| Str (s : string)
| Function (ref : nat)
| Array (elems : list Value)
| Object (fields : list (string * Value)).

Definition keys (fields : list (string * Value)) : list string :=
  map fst fields.

(** [Object.prototype.hasOwnProperty.call(b, key)] *)
Definition hasOwnProperty (fields : list (string * Value)) (key : string) : bool :=
  existsb (String.eqb key) (keys fields).

Fixpoint get (fields : list (string * Value)) (key : string) : option Value :=
  match fields with
  | [] => None
  | (k, v) :: rest => if String.eqb key k then Some v else get rest key
  end.

(** [b[key]]: a property that is absent reads as [undefined]. *)
Definition property (fields : list (string * Value)) (key : string) : Value :=
  match get fields key with
  | Some v => v
  | None => Undefined
  end.

(** [a === b] on values that carry no identity: primitives compare by
    value, functions by reference.  Two arrays or two objects are taken to
    be distinct references, which sends them down the structural path of
    [fastDeepEqual]; [fastDeepEqual_refl] shows that path answers [true]
    on identical values, so nothing is lost. *)
Definition strictEq (a b : Value) : bool :=
  match a, b with
  | Undefined, Undefined => true
  | Null, Null => true
  | Bool x, Bool y => Bool.eqb x y
  | Number x, Number y => Z.eqb x y
  | Str x, Str y => String.eqb x y
  | Function x, Function y => Nat.eqb x y
  | _, _ => false
  end.

(** [a !== a] *)
Definition notSelfIdentical (a : Value) : bool :=
  match a with
  | NaN => true
  | _ => false
  end.

(** The loop [for (i = length; i-- !== 0;) if (!equal(a[i], b[i])) return false]
    over two arrays already known to have the same length. *)
Definition elements (equal : Value -> Value -> bool) : list Value -> list Value -> bool :=
  fix loop (xs ys : list Value) : bool :=
    match xs, ys with
    | x :: xs', y :: ys' => equal x y && loop xs' ys'
    | _, _ => true
    end.

(** Modelled from the spec: the package [fast-deep-equal], imported by
    nativeCell.tsx (line 7), is not under src/; the spec calls its result
    "deep-equal".  This is the package's [equal(a, b)]:
<<
    if (a === b) return true;
    if (a && b && typeof a == 'object' && typeof b == 'object') {
      if (arrA && arrB) {
        length = a.length;
        if (length != b.length) return false;
        for (i = length; i-- !== 0;) if (!equal(a[i], b[i])) return false;
        return true;
      }
      if (arrA != arrB) return false;
      var keys = keyList(a); length = keys.length;
      if (length !== keyList(b).length) return false;
      for (i = length; i-- !== 0;) if (!hasProp.call(b, keys[i])) return false;
      for (i = length; i-- !== 0;) { key = keys[i]; if (!equal(a[key], b[key])) return false; }
      return true;
    }
    return a!==a && b!==b;
>>
    (its cases for [Date] and [RegExp] are left out: props hold neither).
    The loops have no effect other than their answer, so the order in
    which they visit the indices is immaterial. *)
Fixpoint fastDeepEqual (a b : Value) {struct a} : bool :=
  if strictEq a b then true
  else
    match a, b with
    | Array xs, Array ys =>
        if negb (Nat.eqb (List.length xs) (List.length ys)) then false
        else elements fastDeepEqual xs ys
    | Array _, Object _ => false
    | Object _, Array _ => false
    | Object fa, Object fb =>
        if negb (Nat.eqb (List.length (keys fa)) (List.length (keys fb))) then false
        else if negb (forallb (hasOwnProperty fb) (keys fa)) then false
        else forallb (fun '(key, v) => fastDeepEqual v (property fb key)) fa
    | _, _ => notSelfIdentical a && notSelfIdentical b
    end.

Fixpoint distinct (l : list string) : bool :=
  match l with
  | [] => true
  | k :: rest => negb (existsb (String.eqb k) rest) && distinct rest
  end.

(** An object has each of its keys once, at every depth. *)
Fixpoint wellFormed (v : Value) : bool :=
  match v with
  | Array xs => forallb wellFormed xs
  | Object fields =>
      distinct (keys fields) && forallb (fun kv => wellFormed (snd kv)) fields
  | _ => true
  end.

(** Deep equality, stated on its own: two values are deep-equal when they
    are the same primitive, the same function, arrays of the same length
    whose elements are deep-equal position by position, or objects with
    the same set of keys whose values are deep-equal key by key. *)
#[warnings="-register-all"]
Inductive deep_equal : Value -> Value -> Prop :=
| de_undefined : deep_equal Undefined Undefined
| de_null : deep_equal Null Null
| de_bool b : deep_equal (Bool b) (Bool b)
| de_number n : deep_equal (Number n) (Number n)
| de_nan : deep_equal NaN NaN
| de_str s : deep_equal (Str s) (Str s)
| de_function r : deep_equal (Function r) (Function r)
| de_array xs ys :
    Forall2 deep_equal xs ys -> deep_equal (Array xs) (Array ys)
| de_object fa fb :
    (forall k, In k (keys fa) <-> In k (keys fb)) ->
    (forall k v w, get fa k = Some v -> get fb k = Some w -> deep_equal v w) ->
    deep_equal (Object fa) (Object fb).

End JS.

(* ===================================================================== *)
(** * Enumerations imported by the component *)
(* ===================================================================== *)

(** [OSType] of client/common/utils/platform. *)
Module OSType.
Inductive t : Set := Unknown | Windows | OSX | Linux.

Definition eqb (a b : t) : bool :=
  match a, b with
  | Unknown, Unknown | Windows, Windows | OSX, OSX | Linux, Linux => true
  | _, _ => false
  end.
End OSType.

(** [CellState] of client/datascience/types. *)
Module CellState.
Inductive t : Set := editing | init | executing | finished | error.
End CellState.

(** The [cell_type] tags of the cells a view-model can hold: the three of
    nbformat and the [messages] cell of client/datascience/types. *)
Module CellType.
Inductive t : Set := code | markdown | raw | messages.
End CellType.

(** [CursorPos] of interactive-common/mainState. *)
Module CursorPos.
Inductive t : Set := Top | Bottom | Current.
End CursorPos.

(** The members of [NativeCommandType] this file sends. *)
Module NativeCommandType.
Inductive t : Set :=
| AddToEnd | ArrowDown | ArrowUp | ChangeToCode | ChangeToMarkdown
| DeleteCell | InsertAbove | InsertBelow | MoveCellDown | MoveCellUp
| Redo | Run | RunAndAdd | RunAndMove | ToggleLineNumbers | ToggleOutput
| Undo | Unfocus.
End NativeCommandType.

(** The members of [ImageName] this file shows. *)
Module ImageName.
Inductive t : Set :=
| InsertBelow | Up | Down | Run | SwitchToMarkdown | SwitchToCode
| GatherCode | Delete.
End ImageName.

(** The third argument of [executeCell]: ['add' | 'select' | 'none']. *)
Module MoveOp.
Inductive t : Set := add | select | none.
End MoveOp.

(** The second argument of [sendCommand]: ['keyboard' | 'mouse']. *)
Inductive CommandSource : Set := keyboard | mouse.

(* ===================================================================== *)
(** * Data model *)
(* ===================================================================== *)

(** [nbformat.MultilineString = string | string[]] *)
Inductive MultilineString : Type :=
| OneString (s : string)
| ManyStrings (lines : list string).

(** A field that may be missing, [null], or hold a value. *)
Inductive Nullable (A : Type) : Type :=
| undefined
| null
| value (a : A).
Arguments undefined {A}.
Arguments null {A}.
Arguments value {A} a.

(** The fields of [cellVM.cell.data] the component reads.  [outputs] is
    [None] when the field holds no array. *)
Record CellData : Type := {
  cell_type : CellType.t;
  source : MultilineString;
  execution_count : Nullable Z;
  outputs : option (list JS.Value);
  messages : list string
}.

Record ICell : Type := {
  id : string;
  state : CellState.t;
  data : CellData
}.

(** The fields of [ICellViewModel] the component reads. *)
Record ICellViewModel : Type := {
  cell : ICell;
  inputBlockShow : bool;
  editable : bool;
  showLineNumbers : option bool;
  hideOutput : option bool;
  selected : bool;
  focused : bool;
  hasBeenRun : option bool
}.

Record IFont : Type := {
  size : Z;
  family : string
}.

(** [INativeCellBaseProps]; the action creators, the other half of
    [INativeCellProps], appear as the calls logged by the handlers. *)
Record INativeCellProps : Type := {
  role : option string;
  cellVM : ICellViewModel;
  baseTheme : string;
  codeTheme : string;
  testMode : option bool;
  maxTextSize : option Z;
  monacoTheme : option string;
  lastCell : bool;
  firstCell : bool;
  font : IFont;
  allowUndo : bool;
  enableGather : option bool;
  editorOptions : JS.Value;
  themeMatplotlibPlots : option bool
}.

(** [editorInfo] of [IKeyboardEvent]. *)
Record EditorInfo : Type := {
  isFirstLine : bool;
  isLastLine : bool;
  isSuggesting : bool;
  isDirty : bool;
  contents : string
}.

(** [IKeyboardEvent] of react-common/event.  Its [target] is never read;
    its two methods appear as logged calls. *)
Record IKeyboardEvent : Type := {
  code : string;
  shiftKey : bool;
  ctrlKey : bool;
  metaKey : bool;
  altKey : bool;
  editorInfo : option EditorInfo
}.

Module React.
(** [className] is a string on HTML elements and an [SVGAnimatedString]
    (which has no [includes]) on SVG elements. *)
Inductive ClassName : Type :=
| className_string (s : string)
| className_animated (baseVal : string).

Record HTMLElement : Type := { className : ClassName }.

Record NativeEvent : Type := { target : option HTMLElement }.

Record MouseEvent : Type := { nativeEvent : NativeEvent }.

Record KeyboardEvent : Type := {
  key : string;
  shiftKey : bool;
  ctrlKey : bool;
  metaKey : bool;
  altKey : bool
}.
End React.

(** What [inputRef.current] answers when asked for its contents. *)
Record CellInput : Type := { getContents : option string }.

(** What the component asks of [wrapperRef.current]. *)
Record HTMLDivElement : Type := {
  containsActiveElement : bool;
  hasScrollIntoView : bool
}.

(** The component instance: its props and its three private fields. *)
Record NativeCell : Type := {
  props : INativeCellProps;
  inputRef : option CellInput;
  wrapperRef : option HTMLDivElement;
  lastKeyPressed : option string
}.

(** The action creators called through [this.props]. *)
Module actionCreators.
Inductive t : Type :=
| save
| changeCellType (cellId currentCode : string)
| sendCommand (command : NativeCommandType.t) (commandType : CommandSource)
| toggleLineNumbers (cellId : string)
| toggleOutput (cellId : string)
| deleteCell (cellId : string)
| insertAbove (cellId : string)
| insertBelow (cellId : string)
| redo
| undo
| arrowUp (cellId currentCode : string)
| arrowDown (cellId currentCode : string)
| focusCell (cellId : string) (cursorPos : CursorPos.t)
| unfocusCell (cellId currentCode : string)
| selectCell (cellId : string)
| executeCell (cellId content : string) (moveOp : MoveOp.t)
| moveCellUp (cellId : string)
| moveCellDown (cellId : string)
| gatherCell (cellId : string)
| editCell (cellId : string) (changes : list JS.Value) (modelId : string)
| codeCreated (cellId modelId : string)
| linkClick (href : string)
| showPlot (imageHtml : string).
End actionCreators.

(** What a handler does to the world around the component. *)
Inductive Effect : Type :=
| stopPropagation
| preventDefault
| focus
| scrollIntoView
| dispatch (action : actionCreators.t).

(** The functions and the constant ([Identifiers.EditCellId]) the file
    imports from modules that are not under src/. *)
Class Imports : Type := {
  concatMultilineStringInput : MultilineString -> string;
  getOSType : OSType.t;
  getLocString : string -> string -> string;
  EditCellId : string
}.

(* ===================================================================== *)
(** * Handlers: state is [this], the log is the calls made *)
(* ===================================================================== *)

Definition Handler (A : Type) : Type :=
  NativeCell -> A * NativeCell * list Effect.

Definition ret {A : Type} (a : A) : Handler A :=
  fun this => (a, this, []).

Definition bind {A B : Type} (m : Handler A) (k : A -> Handler B) : Handler B :=
  fun this =>
    let '(a, this1, log1) := m this in
    let '(b, this2, log2) := k a this1 in
    (b, this2, log1 ++ log2).

Declare Scope handler_scope.
Delimit Scope handler_scope with handler.
Notation "x <- m ;; k" := (bind m (fun x => k))
  (at level 61, m at next level, right associativity) : handler_scope.
Notation "m ;; k" := (bind m (fun _ => k))
  (at level 61, right associativity) : handler_scope.
Open Scope handler_scope.

Definition getThis : Handler NativeCell :=
  fun this => (this, this, []).

Definition perform (e : Effect) : Handler unit :=
  fun this => (tt, this, [e]).

Definition call (a : actionCreators.t) : Handler unit :=
  perform (dispatch a).

Definition setLastKeyPressed (k : option string) : Handler unit :=
  fun this =>
    (tt,
     {| props := this.(props); inputRef := this.(inputRef);
        wrapperRef := this.(wrapperRef); lastKeyPressed := k |},
     []).

Definition skip : Handler unit := ret tt.

(** The calls a handler made, and the component it left behind. *)
Definition effects {A : Type} (m : Handler A) (this : NativeCell) : list Effect :=
  snd (m this).

Definition after {A : Type} (m : Handler A) (this : NativeCell) : NativeCell :=
  snd (fst (m this)).

(** The action creators called, in order. *)
Fixpoint dispatched (log : list Effect) : list actionCreators.t :=
  match log with
  | [] => []
  | dispatch a :: rest => a :: dispatched rest
  | _ :: rest => dispatched rest
  end.

(** JavaScript truthiness of a string. *)
Definition truthy (s : string) : bool := negb (String.eqb s "").

(** [String.prototype.includes] *)
Fixpoint includes (searchString s : string) : bool :=
  String.prefix searchString s
  || match s with
     | EmptyString => false
     | String _ rest => includes searchString rest
     end.

(** A [case] label of a [switch] on strings. *)
Definition oneOf (labels : list string) (s : string) : bool :=
  existsb (String.eqb s) labels.

(* ===================================================================== *)
(** * The component [NativeCell]: lifecycle and event handlers *)
(* ===================================================================== *)

(** [shouldComponentUpdate]; [fastDeepEqual] sees the two props as the
    JavaScript objects they are at run time. *)
Definition shouldComponentUpdate (props nextProps : JS.Value) : bool :=
  negb (JS.fastDeepEqual props nextProps).

Section Methods.
Context `{Imports}.

Definition getCell (this : NativeCell) : ICell :=
  this.(props).(cellVM).(cell).

Definition isCodeCell (this : NativeCell) : bool :=
  match this.(props).(cellVM).(cell).(data).(cell_type) with
  | CellType.code => true
  | _ => false
  end.

Definition isMarkdownCell (this : NativeCell) : bool :=
  match this.(props).(cellVM).(cell).(data).(cell_type) with
  | CellType.markdown => true
  | _ => false
  end.

Definition isSelected (this : NativeCell) : bool :=
  this.(props).(cellVM).(selected).

Definition isFocused (this : NativeCell) : bool :=
  this.(props).(cellVM).(focused).

Definition cellId (this : NativeCell) : string :=
  this.(props).(cellVM).(cell).(id).

(** [contents || concatMultilineStringInput(source)] *)
Definition getCurrentCode (this : NativeCell) : string :=
  let contents :=
    match this.(inputRef) with
    | Some current => current.(getContents)
    | None => None
    end in
  match contents with
  | Some c =>
      if truthy c then c
      else concatMultilineStringInput this.(props).(cellVM).(cell).(data).(source)
  | None => concatMultilineStringInput this.(props).(cellVM).(cell).(data).(source)
  end.

Definition giveFocus : Handler unit :=
  this <- getThis ;;
  match this.(wrapperRef) with
  | Some current =>
      (if negb current.(containsActiveElement) then perform focus else skip) ;;
      (if current.(hasScrollIntoView) then perform scrollIntoView else skip)
  | None => skip
  end.

Definition componentDidUpdate (prevProps : INativeCellProps) : Handler unit :=
  this <- getThis ;;
  (if this.(props).(cellVM).(selected)
      && negb prevProps.(cellVM).(selected)
      && negb this.(props).(cellVM).(focused)
   then giveFocus else skip) ;;
  setLastKeyPressed None.

Definition onMouseClick (ev : React.MouseEvent) : Handler unit :=
  match ev.(React.nativeEvent).(React.target) with
  | Some elem =>
      let notAButton :=
        match elem.(React.className) with
        | React.className_animated _ => true
        | React.className_string s => negb (includes "image-button" s)
        end in
      if notAButton then
        perform stopPropagation ;;
        setLastKeyPressed None ;;
        this <- getThis ;;
        call (actionCreators.selectCell (cellId this))
      else skip
  | None => skip
  end.

Definition onMouseDoubleClick (ev : React.MouseEvent) : Handler unit :=
  perform stopPropagation ;;
  this <- getThis ;;
  call (actionCreators.focusCell (cellId this) CursorPos.Current).

Definition escapeCell (e : IKeyboardEvent) : Handler unit :=
  this <- getThis ;;
  match this.(wrapperRef) with
  | Some current =>
      if isFocused this then
        perform stopPropagation ;;
        perform focus ;;
        call (actionCreators.sendCommand NativeCommandType.Unfocus keyboard)
      else skip
  | None => skip
  end.

Definition arrowUpFromCell (e : IKeyboardEvent) : Handler unit :=
  perform stopPropagation ;;
  perform preventDefault ;;
  this <- getThis ;;
  call (actionCreators.arrowUp (cellId this) (getCurrentCode this)) ;;
  call (actionCreators.sendCommand NativeCommandType.ArrowUp keyboard).

Definition arrowDownFromCell (e : IKeyboardEvent) : Handler unit :=
  perform stopPropagation ;;
  perform preventDefault ;;
  this <- getThis ;;
  call (actionCreators.arrowDown (cellId this) (getCurrentCode this)) ;;
  call (actionCreators.sendCommand NativeCommandType.ArrowDown keyboard).

(** The ref object [this.wrapperRef] itself is always there. *)
Definition enterCell (e : IKeyboardEvent) : Handler unit :=
  this <- getThis ;;
  if negb (isFocused this)
     && match e.(editorInfo) with Some _ => false | None => true end
     && isSelected this
  then
    perform stopPropagation ;;
    perform preventDefault ;;
    call (actionCreators.focusCell (cellId this) CursorPos.Current)
  else skip.

Definition submitCell (possibleContents : option string) (moveOp : MoveOp.t)
  : Handler unit :=
  this <- getThis ;;
  let content :=
    match possibleContents with
    | Some c => c
    | None => concatMultilineStringInput this.(props).(cellVM).(cell).(data).(source)
    end in
  if truthy content then
    call (actionCreators.executeCell (cellId this) content moveOp)
  else skip.

Definition runAndMove (possibleContents : option string) : Handler unit :=
  this <- getThis ;;
  submitCell possibleContents
    (if this.(props).(lastCell) then MoveOp.add else MoveOp.select).

Definition runAndAdd (possibleContents : option string) : Handler unit :=
  submitCell possibleContents MoveOp.add.

(** [e.editorInfo ? e.editorInfo.contents : undefined] *)
Definition editorContents (e : IKeyboardEvent) : option string :=
  match e.(editorInfo) with
  | Some info => Some info.(contents)
  | None => None
  end.

Definition shiftEnterCell (e : IKeyboardEvent) : Handler unit :=
  perform stopPropagation ;;
  perform preventDefault ;;
  runAndMove (editorContents e) ;;
  call (actionCreators.sendCommand NativeCommandType.RunAndMove keyboard).

Definition altEnterCell (e : IKeyboardEvent) : Handler unit :=
  perform stopPropagation ;;
  perform preventDefault ;;
  runAndAdd (editorContents e) ;;
  call (actionCreators.sendCommand NativeCommandType.RunAndAdd keyboard).

Definition ctrlEnterCell (e : IKeyboardEvent) : Handler unit :=
  perform stopPropagation ;;
  perform preventDefault ;;
  submitCell (editorContents e) MoveOp.none ;;
  call (actionCreators.sendCommand NativeCommandType.Run keyboard).

Definition keyDownInput (cellId : string) (e : IKeyboardEvent) : Handler unit :=
  this <- getThis ;;
  let isFocusedWhenNotSuggesting :=
    isFocused this
    && match e.(editorInfo) with
       | Some info => negb info.(isSuggesting)
       | None => false
       end in
  (* [e.editorInfo!.isFirstLine] and [e.editorInfo!.isLastLine] are read
     only behind [isFocusedWhenNotSuggesting], where the info is there *)
  let onFirstLine :=
    match e.(editorInfo) with Some info => info.(isFirstLine) | None => false end in
  let onLastLine :=
    match e.(editorInfo) with Some info => info.(isLastLine) | None => false end in
  (if oneOf ["ArrowUp"; "k"] e.(code) then
     if (isFocusedWhenNotSuggesting && onFirstLine && negb e.(shiftKey))
        || negb (isFocused this)
     then arrowUpFromCell e else skip
   else if oneOf ["ArrowDown"; "j"] e.(code) then
     if (isFocusedWhenNotSuggesting && onLastLine && negb e.(shiftKey))
        || negb (isFocused this)
     then arrowDownFromCell e else skip
   else if oneOf ["s"] e.(code) then
     if (e.(ctrlKey) && negb (OSType.eqb getOSType OSType.OSX))
        || (e.(metaKey) && OSType.eqb getOSType OSType.OSX)
     then call actionCreators.save else skip
   else if oneOf ["Escape"] e.(code) then
     if isFocusedWhenNotSuggesting then escapeCell e else skip
   else if oneOf ["y"] e.(code) then
     if negb (isFocused this) && isSelected this && isMarkdownCell this then
       perform stopPropagation ;;
       perform preventDefault ;;
       call (actionCreators.changeCellType cellId (getCurrentCode this)) ;;
       call (actionCreators.sendCommand NativeCommandType.ChangeToCode keyboard)
     else skip
   else if oneOf ["m"] e.(code) then
     if negb (isFocused this) && isSelected this && isCodeCell this then
       perform stopPropagation ;;
       perform preventDefault ;;
       call (actionCreators.changeCellType cellId (getCurrentCode this)) ;;
       call (actionCreators.sendCommand NativeCommandType.ChangeToMarkdown keyboard)
     else skip
   else if oneOf ["l"] e.(code) then
     if negb (isFocused this) && isSelected this then
       perform stopPropagation ;;
       call (actionCreators.toggleLineNumbers cellId) ;;
       call (actionCreators.sendCommand NativeCommandType.ToggleLineNumbers keyboard)
     else skip
   else if oneOf ["o"] e.(code) then
     if negb (isFocused this) && isSelected this then
       perform stopPropagation ;;
       call (actionCreators.toggleOutput cellId) ;;
       call (actionCreators.sendCommand NativeCommandType.ToggleOutput keyboard)
     else skip
   else if oneOf ["Enter"] e.(code) then
     if e.(shiftKey) then shiftEnterCell e
     else if e.(ctrlKey) then ctrlEnterCell e
     else if e.(altKey) then altEnterCell e
     else enterCell e
   else if oneOf ["d"] e.(code) then
     if match this.(lastKeyPressed) with
        | Some last => String.eqb last "d"
        | None => false
        end
        && negb (isFocused this) && isSelected this
     then
       perform stopPropagation ;;
       setLastKeyPressed None ;;
       call (actionCreators.deleteCell cellId) ;;
       call (actionCreators.sendCommand NativeCommandType.DeleteCell keyboard)
     else skip
   else if oneOf ["a"] e.(code) then
     if negb (isFocused this) then
       perform stopPropagation ;;
       call (actionCreators.insertAbove cellId) ;;
       call (actionCreators.sendCommand NativeCommandType.InsertAbove keyboard)
     else skip
   else if oneOf ["b"] e.(code) then
     if negb (isFocused this) then
       perform stopPropagation ;;
       call (actionCreators.insertBelow cellId) ;;
       call (actionCreators.sendCommand NativeCommandType.InsertBelow keyboard)
     else skip
   else if oneOf ["z"; "Z"] e.(code) then
     if negb (isFocused this) then
       if e.(shiftKey) && negb e.(ctrlKey) && negb e.(altKey) then
         perform stopPropagation ;;
         call actionCreators.redo ;;
         call (actionCreators.sendCommand NativeCommandType.Redo keyboard)
       else if negb e.(shiftKey) && negb e.(altKey) && negb e.(ctrlKey) then
         perform stopPropagation ;;
         call actionCreators.undo ;;
         call (actionCreators.sendCommand NativeCommandType.Undo keyboard)
       else skip
     else skip
   else skip) ;;
  setLastKeyPressed (Some e.(code)).

Definition onOuterKeyDown (event : React.KeyboardEvent) : Handler unit :=
  this <- getThis ;;
  if negb (String.eqb event.(React.key) "Tab") && negb (isFocused this) then
    keyDownInput this.(props).(cellVM).(cell).(id)
      {| code := event.(React.key);
         shiftKey := event.(React.shiftKey);
         ctrlKey := event.(React.ctrlKey);
         metaKey := event.(React.metaKey);
         altKey := event.(React.altKey);
         editorInfo := None |}
  else skip.

Definition addNewCell : Handler unit :=
  this <- getThis ;;
  call (actionCreators.insertBelow (cellId this)) ;;
  call (actionCreators.sendCommand NativeCommandType.AddToEnd mouse).

Definition onCodeFocused : Handler unit :=
  this <- getThis ;;
  call (actionCreators.focusCell (cellId this) CursorPos.Current).

Definition onCodeUnfocused : Handler unit :=
  this <- getThis ;;
  call (actionCreators.unfocusCell (cellId this) (getCurrentCode this)).

Definition onCodeChange (changes : list JS.Value) (cellId modelId : string)
  : Handler unit :=
  call (actionCreators.editCell cellId changes modelId).

Definition onCodeCreated (_code _file cellId modelId : string) : Handler unit :=
  call (actionCreators.codeCreated cellId modelId).

Definition openLink (uri : string) : Handler unit :=
  call (actionCreators.linkClick uri).

End Methods.

(* ===================================================================== *)
(** * The component [NativeCell]: markup *)
(* ===================================================================== *)

Module JSX.

Inductive Attr : Type :=
| className (s : string)
| role (r : option string)
| ref_wrapperRef
| tabIndex (n : Z)
| onKeyDown (h : React.KeyboardEvent -> Handler unit)
| onClick (h : React.MouseEvent -> Handler unit)
| onDoubleClick (h : React.MouseEvent -> Handler unit).

Record ImageButtonProps : Type := {
  button_baseTheme : string;
  button_onClick : option (Handler unit);
  button_onMouseDown : option (Handler unit);
  button_tooltip : string;
  button_disabled : option bool;
  button_hidden : option bool;
  button_className : option string
}.

Record CellInputProps : Type := {
  input_cellVM : ICellViewModel;
  input_editorOptions : JS.Value;
  input_codeTheme : string;
  input_onCodeChange : list JS.Value -> string -> string -> Handler unit;
  input_onCodeCreated : string -> string -> string -> string -> Handler unit;
  input_testMode : bool;
  input_showWatermark : bool;
  input_monacoTheme : option string;
  input_openLink : string -> Handler unit;
  input_focused : Handler unit;
  input_unfocused : Handler unit;
  input_keyDown : string -> IKeyboardEvent -> Handler unit;
  input_showLineNumbers : option bool;
  input_font : IFont
}.

Record CellOutputProps : Type := {
  output_cellVM : ICellViewModel;
  output_baseTheme : string;
  output_expandImage : string -> Handler unit;
  output_maxTextSize : option Z;
  output_themeMatplotlibPlots : bool
}.

#[warnings="-register-all"]
Inductive Element : Type :=
| null
| div (attrs : list Attr) (children : list Element)
| InformationMessages (messages : list string)
| ImageButton (p : ImageButtonProps) (children : list Element)
| Image (baseTheme class : string) (image : ImageName.t)
| AddCellLine (className baseTheme : string) (includePlus : bool)
              (click : Handler unit)
| ExecutionCount (isBusy : bool) (count : string) (visible : bool)
| CellInput (p : CellInputProps)
| CellOutput (p : CellOutputProps).

Fixpoint classNameOf (attrs : list Attr) : option string :=
  match attrs with
  | [] => None
  | className s :: _ => Some s
  | _ :: rest => classNameOf rest
  end.

(** The wrapper [renderNormalCell] returns: a [div] whose class list
    starts with [cell-wrapper]. *)
Definition isCellWrapper (m : Element) : bool :=
  match m with
  | div attrs _ =>
      match classNameOf attrs with
      | Some c => String.prefix "cell-wrapper" c
      | None => false
      end
  | _ => false
  end.

End JSX.

Section Render.
Context `{Imports}.

Definition isShowingMarkdownEditor (this : NativeCell) : bool :=
  isMarkdownCell this && this.(props).(cellVM).(focused).

Definition shouldRenderCodeEditor (this : NativeCell) : bool :=
  isCodeCell this
  && (this.(props).(cellVM).(inputBlockShow) || this.(props).(cellVM).(editable)).

Definition shouldRenderMarkdownEditor (this : NativeCell) : bool :=
  isMarkdownCell this
  && (isShowingMarkdownEditor this
      || String.eqb this.(props).(cellVM).(cell).(id) EditCellId).

Definition shouldRenderInput (this : NativeCell) : bool :=
  shouldRenderCodeEditor this || shouldRenderMarkdownEditor this.

Definition hasOutput (this : NativeCell) : bool :=
  match (getCell this).(state) with
  | CellState.finished | CellState.error | CellState.executing => true
  | _ => false
  end.

Definition isTrue (b : option bool) : bool :=
  match b with Some true => true | _ => false end.

Definition shouldRenderOutput (this : NativeCell) : bool :=
  if isCodeCell this then
    hasOutput this
    && match this.(props).(cellVM).(cell).(data).(outputs) with
       | Some outs =>
           negb (isTrue this.(props).(cellVM).(hideOutput))
           && negb (Nat.eqb (List.length outs) 0)
       | None => false
       end
  else if isMarkdownCell this then negb (isShowingMarkdownEditor this)
  else false.

Definition renderCollapseBar (this : NativeCell) (input : bool) : JSX.Element :=
  let classes := "collapse-bar" in
  let classes :=
    if isSelected this && negb (isFocused this)
    then (classes ++ " collapse-bar-selected")%string else classes in
  let classes :=
    if isFocused this then (classes ++ " collapse-bar-focused")%string else classes in
  if input then JSX.div [JSX.className classes] []
  else
    match this.(props).(cellVM).(cell).(data).(cell_type),
          this.(props).(cellVM).(cell).(data).(outputs) with
    | CellType.markdown, _ =>
        JSX.div [JSX.className (classes ++ " collapse-bar-markdown")%string] []
    | _, Some (_ :: _) =>
        JSX.div [JSX.className (classes ++ " collapse-bar-output")%string] []
    | _, _ => JSX.null
    end.

Definition renderAddDivider (this : NativeCell) (checkOutput : bool) : JSX.Element :=
  if negb this.(props).(lastCell) then
    if negb checkOutput || negb (shouldRenderOutput this) then
      JSX.AddCellLine "add-divider" this.(props).(baseTheme) false addNewCell
    else JSX.null
  else JSX.null.

Definition image (this : NativeCell) (name : ImageName.t) : JSX.Element :=
  JSX.Image this.(props).(baseTheme) "image-button-image" name.

Definition renderNavbar (this : NativeCell) : JSX.Element :=
  let moveUp : Handler unit :=
    now <- getThis ;;
    call (actionCreators.moveCellUp (cellId now)) ;;
    call (actionCreators.sendCommand NativeCommandType.MoveCellUp mouse) in
  let moveDown : Handler unit :=
    now <- getThis ;;
    call (actionCreators.moveCellDown (cellId now)) ;;
    call (actionCreators.sendCommand NativeCommandType.MoveCellDown mouse) in
  let addButtonRender :=
    if negb this.(props).(lastCell) then
      JSX.div [JSX.className "navbar-add-button"]
        [JSX.ImageButton
           {| JSX.button_baseTheme := this.(props).(baseTheme);
              JSX.button_onClick := Some addNewCell;
              JSX.button_onMouseDown := None;
              JSX.button_tooltip :=
                getLocString "DataScience.insertBelow" "Insert cell below";
              JSX.button_disabled := None;
              JSX.button_hidden := None;
              JSX.button_className := None |}
           [image this ImageName.InsertBelow]]
    else JSX.null in
  JSX.div [JSX.className "navbar-div"]
    [JSX.div []
       [JSX.ImageButton
          {| JSX.button_baseTheme := this.(props).(baseTheme);
             JSX.button_onClick := Some moveUp;
             JSX.button_onMouseDown := None;
             JSX.button_tooltip :=
               getLocString "DataScience.moveCellUp" "Move cell up";
             JSX.button_disabled := Some this.(props).(firstCell);
             JSX.button_hidden := None;
             JSX.button_className := None |}
          [image this ImageName.Up]];
     JSX.div []
       [JSX.ImageButton
          {| JSX.button_baseTheme := this.(props).(baseTheme);
             JSX.button_onClick := Some moveDown;
             JSX.button_onMouseDown := None;
             JSX.button_tooltip :=
               getLocString "DataScience.moveCellDown" "Move cell down";
             JSX.button_disabled := Some this.(props).(lastCell);
             JSX.button_hidden := None;
             JSX.button_className := None |}
          [image this ImageName.Down]];
     addButtonRender].

Definition isFalse (b : option bool) : bool :=
  match b with Some false => true | _ => false end.

Definition renderMiddleToolbar (this : NativeCell) : JSX.Element :=
  let cellId_ := this.(props).(cellVM).(cell).(id) in
  let runCell : Handler unit :=
    now <- getThis ;;
    runAndMove (Some (getCurrentCode now)) ;;
    call (actionCreators.sendCommand NativeCommandType.Run mouse) in
  let gatherCell : Handler unit :=
    call (actionCreators.gatherCell cellId_) in
  let deleteCell : Handler unit :=
    call (actionCreators.deleteCell cellId_) ;;
    call (actionCreators.sendCommand NativeCommandType.DeleteCell mouse) in
  let gatherDisabled :=
    match this.(props).(cellVM).(cell).(data).(execution_count) with
    | null => true
    | _ => false
    end
    || match this.(props).(cellVM).(hasBeenRun) with
       | None => true
       | Some ran => negb ran
       end
    || isMarkdownCell this
    || isFalse this.(props).(enableGather) in
  let switchTooltip :=
    if isCodeCell this
    then getLocString "DataScience.switchToMarkdown" "Change to markdown"
    else getLocString "DataScience.switchToCode" "Change to code" in
  let otherCellType :=
    if isCodeCell this then CellType.markdown else CellType.code in
  let otherCellTypeCommand :=
    match otherCellType with
    | CellType.markdown => NativeCommandType.ChangeToMarkdown
    | _ => NativeCommandType.ChangeToCode
    end in
  let otherCellImage :=
    match otherCellType with
    | CellType.markdown => ImageName.SwitchToMarkdown
    | _ => ImageName.SwitchToCode
    end in
  let switchCellType : Handler unit :=
    perform stopPropagation ;;
    perform preventDefault ;;
    now <- getThis ;;
    call (actionCreators.changeCellType cellId_ (getCurrentCode now)) ;;
    call (actionCreators.sendCommand otherCellTypeCommand mouse) in
  let toolbarClassName := if isCodeCell this then "" else "markdown-toolbar" in
  JSX.div [JSX.className toolbarClassName]
    [JSX.div [JSX.className "native-editor-celltoolbar-middle"]
       [JSX.ImageButton
          {| JSX.button_baseTheme := this.(props).(baseTheme);
             JSX.button_onClick := Some runCell;
             JSX.button_onMouseDown := None;
             JSX.button_tooltip := getLocString "DataScience.runCell" "Run cell";
             JSX.button_disabled := None;
             JSX.button_hidden := Some (isMarkdownCell this);
             JSX.button_className := None |}
          [image this ImageName.Run];
        JSX.ImageButton
          {| JSX.button_baseTheme := this.(props).(baseTheme);
             JSX.button_onClick := None;
             JSX.button_onMouseDown := Some switchCellType;
             JSX.button_tooltip := switchTooltip;
             JSX.button_disabled := None;
             JSX.button_hidden := None;
             JSX.button_className := None |}
          [image this otherCellImage];
        JSX.ImageButton
          {| JSX.button_baseTheme := this.(props).(baseTheme);
             JSX.button_onClick := Some gatherCell;
             JSX.button_onMouseDown := None;
             JSX.button_tooltip :=
               getLocString "DataScience.gatherCell"
                 "Gather the code required to generate this cell into a new notebook";
             JSX.button_disabled := None;
             JSX.button_hidden := Some gatherDisabled;
             JSX.button_className := Some "hover-cell-button" |}
          [image this ImageName.GatherCode];
        JSX.ImageButton
          {| JSX.button_baseTheme := this.(props).(baseTheme);
             JSX.button_onClick := Some deleteCell;
             JSX.button_onMouseDown := None;
             JSX.button_tooltip := getLocString "DataScience.deleteCell" "Delete cell";
             JSX.button_disabled := None;
             JSX.button_hidden := None;
             JSX.button_className := Some "delete-cell-button hover-cell-button" |}
          [image this ImageName.Delete]];
     JSX.div [JSX.className "native-editor-celltoolbar-divider"] []].

(** [execution_count.toString()] *)
Definition toString (n : Z) : string :=
  NilZero.string_of_int (Z.to_int n).

Definition renderControls (this : NativeCell) : JSX.Element :=
  let busy :=
    match this.(props).(cellVM).(cell).(state) with
    | CellState.init | CellState.executing => true
    | _ => false
    end in
  let executionCount :=
    match this.(props).(cellVM).(cell).(data).(execution_count) with
    | value n => if Z.eqb n 0 then "-" else toString n
    | _ => "-"
    end in
  JSX.div [JSX.className "controls-div"]
    [JSX.ExecutionCount busy executionCount (isCodeCell this)].

Definition renderInput (this : NativeCell) : JSX.Element :=
  if shouldRenderInput this then
    JSX.div []
      [renderMiddleToolbar this;
       JSX.CellInput
         {| JSX.input_cellVM := this.(props).(cellVM);
            JSX.input_editorOptions := this.(props).(editorOptions);
            JSX.input_codeTheme := this.(props).(codeTheme);
            JSX.input_onCodeChange := onCodeChange;
            JSX.input_onCodeCreated := onCodeCreated;
            JSX.input_testMode := isTrue this.(props).(testMode);
            JSX.input_showWatermark := false;
            JSX.input_monacoTheme := this.(props).(monacoTheme);
            JSX.input_openLink := openLink;
            JSX.input_focused := onCodeFocused;
            JSX.input_unfocused := onCodeUnfocused;
            JSX.input_keyDown := keyDownInput;
            JSX.input_showLineNumbers := this.(props).(cellVM).(showLineNumbers);
            JSX.input_font := this.(props).(font) |}]
  else JSX.null.

Definition renderOutput (this : NativeCell) : JSX.Element :=
  let themeMatplotlibPlots_ := isTrue this.(props).(themeMatplotlibPlots) in
  let toolbar :=
    if isMarkdownCell this then renderMiddleToolbar this else JSX.null in
  if shouldRenderOutput this then
    JSX.div []
      [toolbar;
       JSX.CellOutput
         {| JSX.output_cellVM := this.(props).(cellVM);
            JSX.output_baseTheme := this.(props).(baseTheme);
            JSX.output_expandImage :=
              fun imageHtml => call (actionCreators.showPlot imageHtml);
            JSX.output_maxTextSize := this.(props).(maxTextSize);
            JSX.output_themeMatplotlibPlots := themeMatplotlibPlots_ |}]
  else JSX.null.

Definition renderNormalCell (this : NativeCell) : JSX.Element :=
  let cellOuterClass :=
    if this.(props).(cellVM).(editable) then "cell-outer-editable" else "cell-outer" in
  let cellWrapperClass :=
    if this.(props).(cellVM).(editable)
    then "cell-wrapper" else "cell-wrapper cell-wrapper-noneditable" in
  let cellWrapperClass :=
    if isSelected this && negb (isFocused this)
    then (cellWrapperClass ++ " cell-wrapper-selected")%string else cellWrapperClass in
  let cellWrapperClass :=
    if isFocused this
    then (cellWrapperClass ++ " cell-wrapper-focused")%string else cellWrapperClass in
  let content :=
    if isMarkdownCell this && negb (isShowingMarkdownEditor this) then
      JSX.div [JSX.className "cell-result-container"]
        [JSX.div [JSX.className "cell-row-container"]
           [renderCollapseBar this false; renderOutput this];
         renderAddDivider this false]
    else
      JSX.div [JSX.className "cell-result-container"]
        [JSX.div [JSX.className "cell-row-container"]
           [renderCollapseBar this true; renderControls this; renderInput this];
         renderAddDivider this true;
         JSX.div [JSX.className "cell-row-container"]
           [renderCollapseBar this false; renderOutput this]] in
  JSX.div
    [JSX.className cellWrapperClass;
     JSX.role this.(props).(role);
     JSX.ref_wrapperRef;
     JSX.tabIndex 0;
     JSX.onKeyDown onOuterKeyDown;
     JSX.onClick onMouseClick;
     JSX.onDoubleClick onMouseDoubleClick]
    [JSX.div [JSX.className cellOuterClass]
       [renderNavbar this;
        JSX.div [JSX.className "content-div"] [content]]].

Definition render (this : NativeCell) : JSX.Element :=
  match this.(props).(cellVM).(cell).(data).(cell_type) with
  | CellType.messages =>
      JSX.InformationMessages this.(props).(cellVM).(cell).(data).(messages)
  | _ => renderNormalCell this
  end.

End Render.

(* ===================================================================== *)
(** * The error raised when the debugger is missing *)
(* ===================================================================== *)

Module JupyterDebuggerNotInstalledError.

(** The part of [Error] the constructor sets. *)
Record Error : Type := { message : string }.

Section Constructor.
(** [localize.DataScience.jupyterDebuggerNotInstalledError()], from a
    module that is not under src/. *)
Variable jupyterDebuggerNotInstalledError : string.

(** [message ? message : localize...()], then [super(errorMessage)]. *)
Definition constructor (message : option string) : Error :=
  let errorMessage :=
    match message with
    | Some m => if truthy m then m else jupyterDebuggerNotInstalledError
    | None => jupyterDebuggerNotInstalledError
    end in
  {| message := errorMessage |}.
End Constructor.

End JupyterDebuggerNotInstalledError.

(* ===================================================================== *)
(** * What the statements below speak of *)
(* ===================================================================== *)

(** Some call of [changeCellType] is in the log. *)
Definition changesCellType (log : list Effect) : bool :=
  existsb (fun a => match a with
                    | actionCreators.changeCellType _ _ => true
                    | _ => false
                    end) (dispatched log).

(** Some call of [executeCell] is in the log. *)
Definition executesCell (log : list Effect) : bool :=
  existsb (fun a => match a with
                    | actionCreators.executeCell _ _ _ => true
                    | _ => false
                    end) (dispatched log).

(** Some call of [deleteCell] is in the log. *)
Definition deletesCell (log : list Effect) : bool :=
  existsb (fun a => match a with
                    | actionCreators.deleteCell _ => true
                    | _ => false
                    end) (dispatched log).

(** The click landed on a toolbar button: the class of its target names
    [image-button]. *)
Definition isImageButtonElement (elem : React.HTMLElement) : bool :=
  match elem.(React.className) with
  | React.className_string s => includes "image-button" s
  | React.className_animated _ => false
  end.

(** Two key presses look alike: same key code and modifier flags, on cells
    with the same focused and selected flags. *)
Definition sameKeyFocusSelection
    (this1 this2 : NativeCell) (e1 e2 : IKeyboardEvent) : Prop :=
  e1.(code) = e2.(code)
  /\ e1.(shiftKey) = e2.(shiftKey)
  /\ e1.(ctrlKey) = e2.(ctrlKey)
  /\ e1.(altKey) = e2.(altKey)
  /\ e1.(metaKey) = e2.(metaKey)
  /\ this1.(props).(cellVM).(focused) = this2.(props).(cellVM).(focused)
  /\ this1.(props).(cellVM).(selected) = this2.(props).(cellVM).(selected).

(** What else [keyDownInput] reads: the editor info of the event, the type,
    id and source of the cell, whether it is the last cell, the last key
    pressed, the contents of the input and whether the wrapper is mounted. *)
Definition sameCellAndEditor
    (this1 this2 : NativeCell) (e1 e2 : IKeyboardEvent) : Prop :=
  e1.(editorInfo) = e2.(editorInfo)
  /\ this1.(props).(cellVM).(cell).(data).(cell_type)
     = this2.(props).(cellVM).(cell).(data).(cell_type)
  /\ this1.(props).(cellVM).(cell).(id) = this2.(props).(cellVM).(cell).(id)
  /\ this1.(props).(cellVM).(cell).(data).(source)
     = this2.(props).(cellVM).(cell).(data).(source)
  /\ this1.(props).(lastCell) = this2.(props).(lastCell)
  /\ this1.(lastKeyPressed) = this2.(lastKeyPressed)
  /\ this1.(inputRef) = this2.(inputRef)
  /\ (this1.(wrapperRef) = None <-> this2.(wrapperRef) = None).

(* ===================================================================== *)
(** * Sample host, cells and events *)
(* ===================================================================== *)

Module Sample.

(** A host that joins the lines of a source as they are, reports Linux and
    has no translations. *)
Definition host : Imports := {|
  concatMultilineStringInput :=
    fun src => match src with
               | OneString s => s
               | ManyStrings lines => String.concat "" lines
               end;
  getOSType := OSType.Linux;
  getLocString := fun _ fallback => fallback;
  EditCellId := "3D3AB152-ADC1-4501-B813-4B83B49B0C10"
|}.

Definition cellOf (type : CellType.t) (src : string) : ICell := {|
  id := "cell-1";
  state := CellState.finished;
  data := {| cell_type := type;
             source := OneString src;
             execution_count := null;
             outputs := None;
             messages := [] |}
|}.

Definition propsOf (c : ICell) (isSelected isFocused : bool) : INativeCellProps := {|
  role := None;
  cellVM := {| cell := c;
               inputBlockShow := true;
               editable := true;
               showLineNumbers := None;
               hideOutput := None;
               selected := isSelected;
               focused := isFocused;
               hasBeenRun := Some false |};
  baseTheme := "vscode-light";
  codeTheme := "light";
  testMode := None;
  maxTextSize := None;
  monacoTheme := None;
  lastCell := false;
  firstCell := true;
  font := {| size := 14; family := "monospace" |};
  allowUndo := true;
  enableGather := None;
  editorOptions := JS.Object [];
  themeMatplotlibPlots := None
|}.

Definition mounted (p : INativeCellProps) : NativeCell := {|
  props := p;
  inputRef := None;
  wrapperRef := Some {| containsActiveElement := false; hasScrollIntoView := true |};
  lastKeyPressed := None
|}.

(** A selected code cell without focus. *)
Definition selectedCodeCell : NativeCell :=
  mounted (propsOf (cellOf CellType.code "print(1)") true false).

(** The same cell under other themes, read-only, running, never the
    first cell: everything the key table does not look at is different. *)
Definition otherwiseDifferentCodeCell : NativeCell := {|
  props := {|
    role := Some "listitem";
    cellVM := {| cell := {| id := "cell-1";
                            state := CellState.executing;
                            data := {| cell_type := CellType.code;
                                       source := OneString "print(1)";
                                       execution_count := value 7%Z;
                                       outputs := Some [JS.Str "1"];
                                       messages := [] |} |};
                 inputBlockShow := false;
                 editable := false;
                 showLineNumbers := Some true;
                 hideOutput := Some true;
                 selected := true;
                 focused := false;
                 hasBeenRun := Some true |};
    baseTheme := "vscode-dark";
    codeTheme := "dark";
    testMode := Some true;
    maxTextSize := Some 400%Z;
    monacoTheme := Some "vs-dark";
    lastCell := false;
    firstCell := false;
    font := {| size := 11; family := "serif" |};
    allowUndo := false;
    enableGather := Some true;
    editorOptions := JS.Object [("wordWrap", JS.Str "on")];
    themeMatplotlibPlots := Some true |};
  inputRef := None;
  wrapperRef := Some {| containsActiveElement := true; hasScrollIntoView := false |};
  lastKeyPressed := None
|}.

(** The same cell holding markdown. *)
Definition selectedMarkdownCell : NativeCell :=
  mounted (propsOf (cellOf CellType.markdown "print(1)") true false).

(** A focused code cell. *)
Definition focusedCodeCell : NativeCell :=
  mounted (propsOf (cellOf CellType.code "print(1)") true true).

(** A selected code cell with nothing in it. *)
Definition emptyCodeCell : NativeCell :=
  mounted (propsOf (cellOf CellType.code "") true false).

(** A cell of the [messages] kind. *)
Definition messagesCell : NativeCell :=
  mounted (propsOf {| id := "cell-0";
                      state := CellState.finished;
                      data := {| cell_type := CellType.messages;
                                 source := OneString "";
                                 execution_count := undefined;
                                 outputs := None;
                                 messages := ["Connected to kernel"] |} |}
             false false).

(** A key pressed on the cell itself, with no modifier. *)
Definition press (k : string) : IKeyboardEvent := {|
  code := k; shiftKey := false; ctrlKey := false; metaKey := false;
  altKey := false; editorInfo := None
|}.

(** Shift+Enter typed in an editor that holds [text]. *)
Definition shiftEnterIn (text : string) : IKeyboardEvent := {|
  code := "Enter"; shiftKey := true; ctrlKey := false; metaKey := false;
  altKey := false;
  editorInfo := Some {| isFirstLine := true; isLastLine := true;
                        isSuggesting := false; isDirty := false;
                        contents := text |}
|}.

Definition clickOn (cls : string) : React.MouseEvent := {|
  React.nativeEvent :=
    {| React.target := Some {| React.className := React.className_string cls |} |}
|}.

(** The props object of a cell, and the same object with its keys in
    another order. *)
Definition propsValue : JS.Value :=
  JS.Object [("lastCell", JS.Bool false);
             ("cellVM", JS.Object [("selected", JS.Bool true);
                                   ("source", JS.Array [JS.Str "print(1)"])]);
             ("save", JS.Function 1)].

Definition propsValueReordered : JS.Value :=
  JS.Object [("save", JS.Function 1);
             ("cellVM", JS.Object [("source", JS.Array [JS.Str "print(1)"]);
                                   ("selected", JS.Bool true)]);
             ("lastCell", JS.Bool false)].

End Sample.

(* ===================================================================== *)
(** * Further vocabulary: logs, markup trees, more samples *)
(* ===================================================================== *)

(** [getUnknownMimeTypeFormatString], public for testing. *)
Definition getUnknownMimeTypeFormatString `{Imports} : string :=
  getLocString "DataScience.unknownMimeTypeFormat" "Unknown Mime Type".

(** The cell an action names, for the actions that name one. *)
Definition actionCellId (a : actionCreators.t) : option string :=
  match a with
  | actionCreators.changeCellType c _
  | actionCreators.toggleLineNumbers c
  | actionCreators.toggleOutput c
  | actionCreators.deleteCell c
  | actionCreators.insertAbove c
  | actionCreators.insertBelow c
  | actionCreators.arrowUp c _
  | actionCreators.arrowDown c _
  | actionCreators.focusCell c _
  | actionCreators.unfocusCell c _
  | actionCreators.selectCell c
  | actionCreators.executeCell c _ _
  | actionCreators.moveCellUp c
  | actionCreators.moveCellDown c
  | actionCreators.gatherCell c
  | actionCreators.editCell c _ _
  | actionCreators.codeCreated c _ => Some c
  | actionCreators.save
  | actionCreators.sendCommand _ _
  | actionCreators.redo
  | actionCreators.undo
  | actionCreators.linkClick _
  | actionCreators.showPlot _ => None
  end.

(** The sources of the commands sent, in order. *)
Fixpoint commandSources (actions : list actionCreators.t) : list CommandSource :=
  match actions with
  | [] => []
  | actionCreators.sendCommand _ src :: rest => src :: commandSources rest
  | _ :: rest => commandSources rest
  end.

(** Some node of the markup satisfies [p]. *)
Fixpoint anywhere (p : JSX.Element -> bool) (m : JSX.Element) : bool :=
  p m
  || match m with
     | JSX.div _ children => existsb (anywhere p) children
     | JSX.ImageButton _ children => existsb (anywhere p) children
     | _ => false
     end.

Definition isCellInput (m : JSX.Element) : bool :=
  match m with JSX.CellInput _ => true | _ => false end.

Definition isCellOutput (m : JSX.Element) : bool :=
  match m with JSX.CellOutput _ => true | _ => false end.

Definition isAddCellLine (m : JSX.Element) : bool :=
  match m with JSX.AddCellLine _ _ _ _ => true | _ => false end.

Definition isNavbarAddButton (m : JSX.Element) : bool :=
  match m with
  | JSX.div attrs _ =>
      match JSX.classNameOf attrs with
      | Some c => String.eqb c "navbar-add-button"
      | None => false
      end
  | _ => false
  end.

(** The handlers the buttons and add-cell lines of a markup tree carry. *)
Fixpoint clickHandlers (m : JSX.Element) : list (Handler unit) :=
  match m with
  | JSX.div _ children => flat_map clickHandlers children
  | JSX.ImageButton p children =>
      match p.(JSX.button_onClick) with Some h => [h] | None => [] end
      ++ match p.(JSX.button_onMouseDown) with Some h => [h] | None => [] end
      ++ flat_map clickHandlers children
  | JSX.AddCellLine _ _ _ click => [click]
  | _ => []
  end.

(** The class list of the root element of a markup tree. *)
Definition rootClass (m : JSX.Element) : string :=
  match m with
  | JSX.div attrs _ =>
      match JSX.classNameOf attrs with Some c => c | None => "" end
  | _ => ""
  end.

Module MoreSamples.

(** A key pressed with shift, ctrl or alt. *)
Definition pressWith (k : string) (shift ctrl alt : bool) : IKeyboardEvent := {|
  code := k; shiftKey := shift; ctrlKey := ctrl; metaKey := false;
  altKey := alt; editorInfo := None
|}.

(** The editor while the suggest widget is open, and a key typed in it. *)
Definition suggestOpen : EditorInfo := {|
  isFirstLine := true; isLastLine := true; isSuggesting := true;
  isDirty := true; contents := "pri"
|}.

Definition suggesting (k : string) : IKeyboardEvent := {|
  code := k; shiftKey := false; ctrlKey := false; metaKey := false;
  altKey := false; editorInfo := Some suggestOpen
|}.

Definition outerKey (k : string) : React.KeyboardEvent := {|
  React.key := k; React.shiftKey := false; React.ctrlKey := false;
  React.metaKey := false; React.altKey := false
|}.

(** A focused markdown cell. *)
Definition focusedMarkdownCell : NativeCell :=
  Sample.mounted (Sample.propsOf (Sample.cellOf CellType.markdown "# title") true true).

(** A code cell that is neither selected nor focused. *)
Definition unselectedCodeCell : NativeCell :=
  Sample.mounted (Sample.propsOf (Sample.cellOf CellType.code "print(1)") false false).

(** A raw cell. *)
Definition rawCell : NativeCell :=
  Sample.mounted (Sample.propsOf (Sample.cellOf CellType.raw "raw text") true false).

(** The last cell of the notebook: selected, not mounted, its editor empty,
    and [d] the last key it saw. *)
Definition lastCodeCell : NativeCell := {|
  props := {|
    role := None;
    cellVM := (Sample.propsOf (Sample.cellOf CellType.code "print(1)") true false).(cellVM);
    baseTheme := "vscode-light"; codeTheme := "light"; testMode := None;
    maxTextSize := None; monacoTheme := None;
    lastCell := true; firstCell := false;
    font := {| size := 14; family := "monospace" |};
    allowUndo := true; enableGather := None;
    editorOptions := JS.Object []; themeMatplotlibPlots := None |};
  inputRef := Some {| getContents := Some "" |};
  wrapperRef := None;
  lastKeyPressed := Some "d"
|}.

End MoreSamples.

(* ===================================================================== *)
(** * Properties *)
(* ===================================================================== *)

Module JSFacts.
Import JS.

(** Induction on values that reaches inside arrays and objects. *)
Lemma Value_nested_ind (P : Value -> Prop) :
  P Undefined -> P Null -> (forall b, P (Bool b)) -> (forall n, P (Number n)) ->
  P NaN -> (forall s, P (Str s)) -> (forall r, P (Function r)) ->
  (forall xs, Forall P xs -> P (Array xs)) ->
  (forall fs, Forall (fun kv => P (snd kv)) fs -> P (Object fs)) ->
  forall v, P v.
Proof.
  intros Hu Hn Hb Hz Hnan Hs Hf Ha Ho.
  fix IH 1.
  intros [ | | b | n | | s | r | xs | fs ];
    [ exact Hu | exact Hn | apply Hb | apply Hz | exact Hnan | apply Hs
    | apply Hf | apply Ha | apply Ho ].
  - induction xs as [ | x xs IHxs ]; constructor; [apply IH | exact IHxs].
  - induction fs as [ | [k x] fs IHfs ]; constructor; [apply IH | exact IHfs].
Qed.

Lemma existsb_eqb_In (k : string) (l : list string) :
  existsb (String.eqb k) l = true <-> In k l.
Proof.
  rewrite existsb_exists. split.
  - intros [x [Hin Heq]]. apply String.eqb_eq in Heq. now subst.
  - intros Hin. exists k. split; [assumption | apply String.eqb_refl].
Qed.

Lemma distinct_NoDup (l : list string) : distinct l = true <-> NoDup l.
Proof.
  induction l as [ | k l IH ]; simpl.
  - split; [constructor | reflexivity].
  - rewrite andb_true_iff, negb_true_iff, IH, NoDup_cons_iff.
    rewrite <- not_true_iff_false, existsb_eqb_In. reflexivity.
Qed.

Lemma get_None (fs : list (string * Value)) (k : string) :
  get fs k = None <-> ~ In k (keys fs).
Proof.
  induction fs as [ | [k' v] fs IH ]; simpl.
  - tauto.
  - destruct (String.eqb_spec k k') as [-> | Hne].
    + split; [discriminate | intros H; exfalso; apply H; now left].
    + rewrite IH. split; intros H.
      * intros [Heq | Hin]; [now apply Hne | now apply H].
      * intros Hin. apply H. now right.
Qed.

Lemma get_Some_In (fs : list (string * Value)) (k : string) (v : Value) :
  get fs k = Some v -> In (k, v) fs.
Proof.
  induction fs as [ | [k' v'] fs IH ]; simpl; [discriminate | ].
  destruct (String.eqb_spec k k') as [-> | Hne].
  - intros [= ->]. now left.
  - intros H. right. now apply IH.
Qed.

Lemma In_get_Some (fs : list (string * Value)) (k : string) (v : Value) :
  NoDup (keys fs) -> In (k, v) fs -> get fs k = Some v.
Proof.
  induction fs as [ | [k' v'] fs IH ]; simpl; [tauto | ].
  intros Hnd [Heq | Hin].
  - injection Heq as -> ->. now rewrite String.eqb_refl.
  - apply NoDup_cons_iff in Hnd as [Hnotin Hnd].
    destruct (String.eqb_spec k k') as [-> | Hne].
    + exfalso. apply Hnotin. change (In (fst (k', v)) (map fst fs)).
      now apply in_map.
    + now apply IH.
Qed.

Lemma wellFormed_property (fs : list (string * Value)) (k : string) :
  wellFormed (Object fs) = true -> wellFormed (property fs k) = true.
Proof.
  simpl. rewrite andb_true_iff, forallb_forall. intros [_ Hall].
  unfold property. destruct (get fs k) as [v | ] eqn:Hget; [ | reflexivity].
  apply get_Some_In in Hget. exact (Hall _ Hget).
Qed.

Lemma hasOwnProperty_In (fs : list (string * Value)) (k : string) :
  hasOwnProperty fs k = true <-> In k (keys fs).
Proof. apply existsb_eqb_In. Qed.

Lemma strictEq_deep_equal (a b : Value) :
  strictEq a b = true -> deep_equal a b.
Proof.
  destruct a, b; simpl; try discriminate; intros H.
  - constructor.
  - constructor.
  - apply Bool.eqb_prop in H. subst. constructor.
  - apply Z.eqb_eq in H. subst. constructor.
  - apply String.eqb_eq in H. subst. constructor.
  - apply Nat.eqb_eq in H. subst. constructor.
Qed.

Lemma elements_Forall2 (xs : list Value) :
  Forall (fun x => forall y, wellFormed x = true -> wellFormed y = true ->
                     (fastDeepEqual x y = true <-> deep_equal x y)) xs ->
  forall ys, forallb wellFormed xs = true -> forallb wellFormed ys = true ->
        List.length xs = List.length ys ->
        (elements fastDeepEqual xs ys = true <-> Forall2 deep_equal xs ys).
Proof.
  induction 1 as [ | x xs Hx _ IH ]; intros [ | y ys ]; simpl;
    try discriminate.
  - intros _ _ _. split; [constructor | reflexivity].
  - rewrite !andb_true_iff. intros [Wx Wxs] [Wy Wys] [= Hlen].
    rewrite (Hx y Wx Wy), (IH ys Wxs Wys Hlen). split.
    + intros [? ?]. now constructor.
    + intros H. inversion H; subst. now split.
Qed.

Lemma Forall2_length_eq (xs ys : list Value) :
  Forall2 deep_equal xs ys -> List.length xs = List.length ys.
Proof. induction 1; simpl; congruence. Qed.

Lemma same_keys_length (fa fb : list (string * Value)) :
  NoDup (keys fa) -> NoDup (keys fb) ->
  (forall k, In k (keys fa) <-> In k (keys fb)) ->
  List.length (keys fa) = List.length (keys fb).
Proof.
  intros Ha Hb Hsame. apply Nat.le_antisymm.
  - apply NoDup_incl_length; [assumption | ]. intros k. apply Hsame.
  - apply NoDup_incl_length; [assumption | ]. intros k. apply Hsame.
Qed.

(** The object case: with the same number of keys, every key of [a] being
    a key of [b] makes the two key sets equal. *)
Lemma keys_included_same (fa fb : list (string * Value)) :
  NoDup (keys fa) ->
  List.length (keys fa) = List.length (keys fb) ->
  forallb (hasOwnProperty fb) (keys fa) = true ->
  forall k, In k (keys fa) <-> In k (keys fb).
Proof.
  intros Ha Hlen Hall k. rewrite forallb_forall in Hall.
  assert (Hincl : incl (keys fa) (keys fb)).
  { intros x Hx. apply hasOwnProperty_In. now apply Hall. }
  split; [apply Hincl | ].
  apply (NoDup_length_incl Ha); [ | assumption].
  rewrite Hlen. apply Nat.le_refl.
Qed.

(** [fastDeepEqual] decides deep equality of well-formed values. *)
Lemma fastDeepEqual_deep_equal (a : Value) :
  forall b, wellFormed a = true -> wellFormed b = true ->
       (fastDeepEqual a b = true <-> deep_equal a b).
Proof.
  induction a as [ | | x | n | | s | r | xs IH | fa IH ] using Value_nested_ind;
    intros b Wa Wb.
  1-7: destruct b; simpl; split; intros H; try discriminate; try (inversion H; fail);
    try constructor.
  - destruct (Bool.eqb x b) eqn:E; [ | discriminate].
    apply Bool.eqb_prop in E. subst. constructor.
  - inversion H; subst. now rewrite Bool.eqb_reflx.
  - destruct (Z.eqb n n0) eqn:E; [ | discriminate].
    apply Z.eqb_eq in E. subst. constructor.
  - inversion H; subst. now rewrite Z.eqb_refl.
  - destruct (String.eqb s s0) eqn:E; [ | discriminate].
    apply String.eqb_eq in E. subst. constructor.
  - inversion H; subst. now rewrite String.eqb_refl.
  - destruct (Nat.eqb r ref) eqn:E; [ | discriminate].
    apply Nat.eqb_eq in E. subst. constructor.
  - inversion H; subst. now rewrite Nat.eqb_refl.
  - (* arrays *)
    destruct b as [ | | | | | | | ys | fb ]; simpl;
      try (split; [discriminate | intros H; inversion H]).
    simpl in Wa, Wb.
    destruct (Nat.eqb_spec (List.length xs) (List.length ys)) as [Hlen | Hlen]; simpl.
    + rewrite (elements_Forall2 xs IH ys Wa Wb Hlen). split.
      * intros H. now constructor.
      * intros H. now inversion H.
    + split; [discriminate | ]. intros H. inversion H; subst.
      exfalso. apply Hlen. now apply Forall2_length_eq.
  - (* objects *)
    destruct b as [ | | | | | | | ys | fb ]; simpl;
      try (split; [discriminate | intros H; inversion H]).
    pose proof (wellFormed_property fb) as Wprop. specialize (Wprop).
    simpl in Wa. apply andb_true_iff in Wa as [Da Va].
    assert (Wb' := Wb). simpl in Wb'. apply andb_true_iff in Wb' as [Db Vb].
    apply distinct_NoDup in Da, Db.
    rewrite forallb_forall in Va. rewrite Forall_forall in IH.
    destruct (Nat.eqb_spec (List.length (keys fa)) (List.length (keys fb)))
      as [Hlen | Hlen]; simpl.
    + destruct (forallb (hasOwnProperty fb) (keys fa)) eqn:Hown; simpl.
      * pose proof (keys_included_same fa fb Da Hlen Hown) as Hsame.
        rewrite forallb_forall. split.
        -- intros Hall. constructor; [exact Hsame | ].
           intros k v w Hv Hw. apply get_Some_In in Hv.
           specialize (Hall _ Hv). simpl in Hall.
           unfold property in Hall. rewrite Hw in Hall.
           apply (IH _ Hv w (Va _ Hv)); [ | exact Hall].
           apply get_Some_In in Hw. rewrite forallb_forall in Vb.
           exact (Vb _ Hw).
        -- intros H [k v] Hin. inversion H as [ | | | | | | | | ? ? _ Hvals ]; subst.
           assert (Hget : get fa k = Some v) by now apply In_get_Some.
           destruct (get fb k) as [w | ] eqn:Hw.
           ++ apply (IH _ Hin (property fb k) (Va _ Hin) (Wprop k Wb)).
              unfold property. rewrite Hw. now apply (Hvals k).
           ++ exfalso. apply get_None in Hw. apply Hw, Hsame.
              change (In (fst (k, v)) (map fst fa)). now apply in_map.
      * split; [discriminate | ]. intros H.
        inversion H as [ | | | | | | | | ? ? Hsame _ ]; subst.
        assert (forallb (hasOwnProperty fb) (keys fa) = true); [ | congruence].
        apply forallb_forall. intros k Hk. apply hasOwnProperty_In. now apply Hsame.
    + split; [discriminate | ]. intros H.
      inversion H as [ | | | | | | | | ? ? Hsame _ ]; subst.
      exfalso. apply Hlen. now apply same_keys_length.
Qed.

Lemma deep_equal_refl (a : Value) : deep_equal a a.
Proof.
  induction a as [ | | x | n | | s | r | xs IH | fa IH ] using Value_nested_ind;
    try constructor.
  - induction IH; constructor; assumption.
  - tauto.
  - intros k v w Hv Hw. rewrite Hv in Hw. injection Hw as <-.
    rewrite Forall_forall in IH. apply get_Some_In in Hv.
    exact (IH _ Hv).
Qed.

(** The shortcut [a === b] on one and the same array or object gives the
    answer the structural path gives. *)
Lemma fastDeepEqual_refl (a : Value) :
  wellFormed a = true -> fastDeepEqual a a = true.
Proof.
  intros Wa. apply fastDeepEqual_deep_equal; [assumption | assumption | ].
  apply deep_equal_refl.
Qed.

End JSFacts.

(* --------------------------------------------------------------------- *)
(** ** Running a handler symbolically *)
(* --------------------------------------------------------------------- *)

Ltac open_handlers :=
  unfold effects, after, keyDownInput, arrowUpFromCell, arrowDownFromCell,
    escapeCell, enterCell, shiftEnterCell, ctrlEnterCell, altEnterCell,
    runAndMove, runAndAdd, submitCell, editorContents, onMouseClick,
    onMouseDoubleClick.

Ltac run :=
  unfold bind, getThis, skip, ret, call, perform, setLastKeyPressed; cbn.

(** One case per label of the [switch], and one for [default]. *)
Ltac key_split c :=
  repeat match goal with
    | |- context [String.eqb c ?k] =>
        let E := fresh "E" in
        destruct (String.eqb c k) eqn:E;
        [apply String.eqb_eq in E; subst c | apply String.eqb_neq in E]
    end.

Ltac split_ifs :=
  repeat match goal with
    | |- context [if ?b then _ else _] => destruct b eqn:?; run
    | |- context [match ?x with Some _ => _ | None => _ end] =>
        destruct x eqn:?; run
    end.

Section NativeCellFacts.
Context `{Imports}.

(** Whatever the key, [keyDownInput] ends by recording it. *)
Lemma keyDownInput_records_key (this : NativeCell) (cid : string)
    (e : IKeyboardEvent) :
  (after (keyDownInput cid e) this).(lastKeyPressed) = Some e.(code).
Proof.
  destruct e as [c sh ct me al ei]. open_handlers. cbn.
  key_split c; run; split_ifs; reflexivity.
Qed.

(** The [d] row of the table. *)
Lemma keyDownInput_deletes_iff (this : NativeCell) (cid : string)
    (e : IKeyboardEvent) :
  deletesCell (effects (keyDownInput cid e) this) = true <->
  e.(code) = "d" /\ this.(lastKeyPressed) = Some "d"
  /\ isFocused this = false /\ isSelected this = true.
Proof.
  destruct e as [c sh ct me al ei]. unfold deletesCell. open_handlers. cbn.
  key_split c; run.
  all: destruct (isFocused this) eqn:F, (isSelected this) eqn:S; run.
  all: try (destruct (lastKeyPressed this) as [last | ] eqn:L; run;
            [destruct (String.eqb_spec last "d"); run | ]).
  all: split_ifs.
  all: intuition (discriminate || congruence).
Qed.

End NativeCellFacts.

(* --------------------------------------------------------------------- *)
(** ** Re-rendering *)
(* --------------------------------------------------------------------- *)

(** C1.  For every pair of (well-formed) props, [shouldComponentUpdate]
    answers [false] exactly when the current and the next props are
    deep-equal; hence it asks for a re-render exactly when they are not. *)
Theorem shouldComponentUpdate_false_iff_deep_equal (props nextProps : JS.Value) :
  JS.wellFormed props = true ->
  JS.wellFormed nextProps = true ->
  (shouldComponentUpdate props nextProps = false <-> JS.deep_equal props nextProps)
  /\ (shouldComponentUpdate props nextProps = true <-> ~ JS.deep_equal props nextProps).
Proof.
  intros Wa Wb. unfold shouldComponentUpdate.
  pose proof (JSFacts.fastDeepEqual_deep_equal props nextProps Wa Wb) as Hdec.
  destruct (JS.fastDeepEqual props nextProps); simpl; split; split.
  - intros _. now apply Hdec.
  - reflexivity.
  - discriminate.
  - intros Hn. exfalso. apply Hn. now apply Hdec.
  - discriminate.
  - intros Hd. apply Hdec in Hd. discriminate.
  - intros _ Hd. apply Hdec in Hd. discriminate.
  - reflexivity.
Qed.

Lemma shouldComponentUpdate_reordered_props :
  JS.wellFormed Sample.propsValue = true
  /\ JS.wellFormed Sample.propsValueReordered = true
  /\ (shouldComponentUpdate Sample.propsValue Sample.propsValueReordered = false
      <-> JS.deep_equal Sample.propsValue Sample.propsValueReordered).
Proof.
  split; [reflexivity | split; [reflexivity | ]].
  apply (shouldComponentUpdate_false_iff_deep_equal
           Sample.propsValue Sample.propsValueReordered); reflexivity.
Defined.

(* --------------------------------------------------------------------- *)
(** ** The keyboard table *)
(* --------------------------------------------------------------------- *)

Section KeyboardTable.
Context `{Imports}.

(** C2, amended.  Two key presses for the same cell id [cid] that agree on key
    code, modifier flags and editor info, under the same host, on cells
    that agree on the focused and selected flags and also on cell type,
    id, source, [lastCell], last key pressed, input contents and on
    whether the wrapper is mounted, dispatch the same actions, whatever
    the rest of the props and of the view-model. *)
Theorem keyDownInput_same_actions (this1 this2 : NativeCell) (cid : string)
    (e1 e2 : IKeyboardEvent) :
  sameKeyFocusSelection this1 this2 e1 e2 ->
  sameCellAndEditor this1 this2 e1 e2 ->
  dispatched (effects (keyDownInput cid e1) this1)
  = dispatched (effects (keyDownInput cid e2) this2).
Proof.
  intros (Hc & Hs & Hct & Hal & Hme & Hf & Hsel)
         (Hei & Hty & Hid & Hsrc & Hlast & Hkey & Hin & Hwr).
  destruct e1 as [c sh ct me al ei], e2 as [c' sh' ct' me' al' ei'].
  destruct this1 as [[r1 [[i1 s1 [t1 src1 x1 o1 m1]] b1 ed1 ln1 ho1 sel1 f1 hr1]
                        bt1 cth1 tm1 mx1 mo1 lc1 fc1 fo1 au1 eg1 eo1 tp1] in1 w1 k1].
  destruct this2 as [[r2 [[i2 s2 [t2 src2 x2 o2 m2]] b2 ed2 ln2 ho2 sel2 f2 hr2]
                        bt2 cth2 tm2 mx2 mo2 lc2 fc2 fo2 au2 eg2 eo2 tp2] in2 w2 k2].
  simpl in *. subst.
  assert (Hw : (w1 = None /\ w2 = None) \/ (exists a b, w1 = Some a /\ w2 = Some b)).
  { destruct w1 as [a | ], w2 as [b | ].
    - right. now exists a, b.
    - exfalso. assert (Some a = None) by now apply Hwr. discriminate.
    - exfalso. assert (Some b = None) by now apply Hwr. discriminate.
    - now left. }
  clear Hwr.
  open_handlers. unfold isFocused, isSelected, isCodeCell, isMarkdownCell,
    getCurrentCode, cellId. cbn.
  key_split c'; run.
  all: destruct f2, sel2; run.
  all: try (destruct Hw as [[-> ->] | (a & b & -> & ->)]; run).
  all: split_ifs; reflexivity.
Qed.

(** C3, amended.  On [Enter] with shift held, [keyDownInput] runs the
    cell: when the content (the editor contents if the event carries
    editor info, the concatenated source otherwise) is not empty it
    dispatches [executeCell] with it, with ['add'] on the last cell and
    ['select'] otherwise; when the content is empty it dispatches no
    [executeCell]; in both cases it sends [RunAndMove]. *)
Theorem keyDownInput_shift_enter (this : NativeCell) (cid : string)
    (e : IKeyboardEvent) :
  e.(code) = "Enter" ->
  e.(shiftKey) = true ->
  let content :=
    match e.(editorInfo) with
    | Some info => info.(contents)
    | None => concatMultilineStringInput this.(props).(cellVM).(cell).(data).(source)
    end in
  let moveOp := if this.(props).(lastCell) then MoveOp.add else MoveOp.select in
  dispatched (effects (keyDownInput cid e) this)
  = (if String.eqb content "" then []
     else [actionCreators.executeCell this.(props).(cellVM).(cell).(id) content moveOp])
    ++ [actionCreators.sendCommand NativeCommandType.RunAndMove keyboard].
Proof.
  destruct e as [c sh ct me al ei]. simpl. intros -> ->.
  open_handlers. unfold truthy, cellId. run.
  destruct ei as [info | ]; run;
    match goal with
    | |- context [String.eqb ?content ""] => destruct (String.eqb content "")
    end; run; split_ifs; reflexivity.
Qed.

(** C5.  [keyDownInput] calls [changeCellType] exactly when the cell is
    selected without focus and the key is [m] on a code cell or [y] on a
    markdown cell; it then passes the current code and sends
    [ChangeToMarkdown] for [m], [ChangeToCode] for [y]. *)
Theorem keyDownInput_changeCellType (this : NativeCell) (cid : string)
    (e : IKeyboardEvent) :
  (changesCellType (effects (keyDownInput cid e) this) = true <->
   isFocused this = false /\ isSelected this = true /\
   ((e.(code) = "m" /\ isCodeCell this = true) \/
    (e.(code) = "y" /\ isMarkdownCell this = true)))
  /\ (changesCellType (effects (keyDownInput cid e) this) = true ->
      dispatched (effects (keyDownInput cid e) this)
      = [actionCreators.changeCellType cid (getCurrentCode this);
         actionCreators.sendCommand
           (if String.eqb e.(code) "m"
            then NativeCommandType.ChangeToMarkdown
            else NativeCommandType.ChangeToCode) keyboard]).
Proof.
  destruct e as [c sh ct me al ei]. simpl.
  unfold changesCellType. open_handlers. cbn.
  key_split c; cbn.
  all: destruct (isFocused this) eqn:F, (isSelected this) eqn:S,
    (isCodeCell this) eqn:C, (isMarkdownCell this) eqn:M; run; split_ifs.
  all: split; [intuition (discriminate || congruence)
              | try discriminate; intros _; reflexivity].
Qed.

(** C6.  On [z] or [Z], a cell without focus dispatches [redo] when shift
    is held without ctrl or alt, [undo] when none of shift, ctrl and alt
    is held, and neither otherwise; a focused cell dispatches neither. *)
Theorem keyDownInput_undo_redo (this : NativeCell) (cid : string)
    (e : IKeyboardEvent) :
  e.(code) = "z" \/ e.(code) = "Z" ->
  dispatched (effects (keyDownInput cid e) this)
  = if isFocused this then []
    else if e.(shiftKey) && negb e.(ctrlKey) && negb e.(altKey)
    then [actionCreators.redo;
          actionCreators.sendCommand NativeCommandType.Redo keyboard]
    else if negb e.(shiftKey) && negb e.(ctrlKey) && negb e.(altKey)
    then [actionCreators.undo;
          actionCreators.sendCommand NativeCommandType.Undo keyboard]
    else [].
Proof.
  destruct e as [c sh ct me al ei]. simpl.
  intros [-> | ->]; open_handlers; cbn;
    destruct (isFocused this), sh, ct, al; reflexivity.
Qed.

(** C9.  Submitting with no editor contents a cell whose concatenated
    source is empty does nothing: no call is made, [executeCell] included,
    and the component is left as it was. *)
Theorem submitCell_empty_noop (this : NativeCell) (moveOp : MoveOp.t) :
  concatMultilineStringInput this.(props).(cellVM).(cell).(data).(source) = "" ->
  effects (submitCell None moveOp) this = []
  /\ executesCell (effects (submitCell None moveOp) this) = false
  /\ after (submitCell None moveOp) this = this.
Proof.
  intros Hempty. open_handlers. run. rewrite Hempty. run.
  repeat split; reflexivity.
Qed.

End KeyboardTable.

(* --------------------------------------------------------------------- *)
(** ** The mouse *)
(* --------------------------------------------------------------------- *)

Section Mouse.

(** C7.  A click whose target is not an image-button element dispatches
    [selectCell] for this cell's id and clears the last key; a double
    click, wherever it lands (on a button, or with no target at all),
    dispatches [focusCell] for this cell's id at [Current]. *)
Theorem mouse_clicks_dispatch (this : NativeCell) (ev : React.MouseEvent)
    (elem : React.HTMLElement) :
  ev.(React.nativeEvent).(React.target) = Some elem ->
  isImageButtonElement elem = false ->
  dispatched (effects (onMouseClick ev) this)
    = [actionCreators.selectCell this.(props).(cellVM).(cell).(id)]
  /\ (after (onMouseClick ev) this).(lastKeyPressed) = None
  /\ forall doubleClick : React.MouseEvent,
       dispatched (effects (onMouseDoubleClick doubleClick) this)
       = [actionCreators.focusCell this.(props).(cellVM).(cell).(id)
            CursorPos.Current].
Proof.
  destruct ev as [[tgt]]. simpl. intros -> Hnot.
  unfold isImageButtonElement in Hnot. open_handlers. run.
  destruct (React.className elem) as [s | v]; [rewrite Hnot | ]; run;
    repeat split; reflexivity.
Qed.

End Mouse.

(* --------------------------------------------------------------------- *)
(** ** The table at sample cells *)
(* --------------------------------------------------------------------- *)

(** C2, as stated, fails: the same [m] key, with the same flags, on two
    selected cells without focus, changes the type of the code cell and
    does nothing on the markdown cell. *)
Lemma keyDownInput_depends_on_cell_type :
  sameKeyFocusSelection Sample.selectedCodeCell Sample.selectedMarkdownCell
    (Sample.press "m") (Sample.press "m")
  /\ dispatched (effects (@keyDownInput Sample.host "cell-1" (Sample.press "m"))
                   Sample.selectedCodeCell)
     <> dispatched (effects (@keyDownInput Sample.host "cell-1" (Sample.press "m"))
                      Sample.selectedMarkdownCell).
Proof.
  split.
  - repeat split.
  - vm_compute. discriminate.
Qed.

Lemma keyDownInput_same_actions_sample :
  sameKeyFocusSelection Sample.selectedCodeCell Sample.otherwiseDifferentCodeCell
    (Sample.press "m") (Sample.press "m")
  /\ sameCellAndEditor Sample.selectedCodeCell Sample.otherwiseDifferentCodeCell
       (Sample.press "m") (Sample.press "m")
  /\ dispatched (effects (@keyDownInput Sample.host "cell-1" (Sample.press "m"))
                   Sample.selectedCodeCell)
     = dispatched (effects (@keyDownInput Sample.host "cell-1" (Sample.press "m"))
                     Sample.otherwiseDifferentCodeCell).
Proof.
  assert (Hkey : sameKeyFocusSelection Sample.selectedCodeCell
                   Sample.otherwiseDifferentCodeCell
                   (Sample.press "m") (Sample.press "m")).
  { repeat split. }
  assert (Hcell : sameCellAndEditor Sample.selectedCodeCell
                    Sample.otherwiseDifferentCodeCell
                    (Sample.press "m") (Sample.press "m")).
  { repeat split; simpl; discriminate. }
  split; [exact Hkey | split; [exact Hcell | ]].
  exact (@keyDownInput_same_actions Sample.host _ _ "cell-1" _ _ Hkey Hcell).
Defined.

(** C3, as stated, fails: shift+Enter in an editor that holds nothing
    dispatches no [executeCell]. *)
Lemma keyDownInput_shift_enter_on_empty_editor :
  (Sample.shiftEnterIn "").(code) = "Enter"
  /\ (Sample.shiftEnterIn "").(shiftKey) = true
  /\ executesCell (effects (@keyDownInput Sample.host "cell-1" (Sample.shiftEnterIn ""))
                     Sample.focusedCodeCell) = false
  /\ dispatched (effects (@keyDownInput Sample.host "cell-1" (Sample.shiftEnterIn ""))
                   Sample.focusedCodeCell)
     = [actionCreators.sendCommand NativeCommandType.RunAndMove keyboard].
Proof. repeat split. Qed.

Lemma keyDownInput_shift_enter_sample :
  (Sample.shiftEnterIn "print(2)").(code) = "Enter"
  /\ (Sample.shiftEnterIn "print(2)").(shiftKey) = true
  /\ dispatched (effects (@keyDownInput Sample.host "cell-1"
                            (Sample.shiftEnterIn "print(2)"))
                   Sample.focusedCodeCell)
     = [actionCreators.executeCell "cell-1" "print(2)" MoveOp.select;
        actionCreators.sendCommand NativeCommandType.RunAndMove keyboard].
Proof.
  split; [reflexivity | split; [reflexivity | ]].
  apply (@keyDownInput_shift_enter Sample.host Sample.focusedCodeCell "cell-1"
           (Sample.shiftEnterIn "print(2)")); reflexivity.
Defined.

(** C4.  The code at three [d] presses in a row on a selected cell without
    focus: the first dispatches nothing, the second deletes, and the third
    deletes again, because the key recorded after the second press is [d],
    not the cleared value. *)
Theorem keyDownInput_third_d_deletes_again :
  let press_d := @keyDownInput Sample.host "cell-1" (Sample.press "d") in
  let this1 := after press_d Sample.selectedCodeCell in
  let this2 := after press_d this1 in
  dispatched (effects press_d Sample.selectedCodeCell) = []
  /\ dispatched (effects press_d this1)
     = [actionCreators.deleteCell "cell-1";
        actionCreators.sendCommand NativeCommandType.DeleteCell keyboard]
  /\ this2.(lastKeyPressed) = Some "d"
  /\ dispatched (effects press_d this2)
     = [actionCreators.deleteCell "cell-1";
        actionCreators.sendCommand NativeCommandType.DeleteCell keyboard].
Proof. repeat split. Qed.

Lemma keyDownInput_undo_redo_sample :
  ((Sample.press "z").(code) = "z" \/ (Sample.press "z").(code) = "Z")
  /\ dispatched (effects (@keyDownInput Sample.host "cell-1" (Sample.press "z"))
                   Sample.selectedCodeCell)
     = [actionCreators.undo;
        actionCreators.sendCommand NativeCommandType.Undo keyboard].
Proof.
  split; [left; reflexivity | ].
  apply (@keyDownInput_undo_redo Sample.host Sample.selectedCodeCell "cell-1"
           (Sample.press "z")).
  left. reflexivity.
Defined.

Lemma mouse_clicks_dispatch_sample :
  isImageButtonElement {| React.className := React.className_string "cell-outer" |}
  = false
  /\ dispatched (effects (onMouseClick (Sample.clickOn "cell-outer"))
                   Sample.selectedCodeCell)
     = [actionCreators.selectCell "cell-1"]
  /\ (after (onMouseClick (Sample.clickOn "cell-outer"))
        Sample.selectedCodeCell).(lastKeyPressed) = None
  /\ dispatched (effects (onMouseDoubleClick (Sample.clickOn "image-button-image"))
                   Sample.selectedCodeCell)
     = [actionCreators.focusCell "cell-1" CursorPos.Current]
  /\ dispatched (effects (onMouseDoubleClick
                            {| React.nativeEvent := {| React.target := None |} |})
                   Sample.selectedCodeCell)
     = [actionCreators.focusCell "cell-1" CursorPos.Current].
Proof.
  split; [reflexivity | ].
  pose proof (mouse_clicks_dispatch Sample.selectedCodeCell
                (Sample.clickOn "cell-outer")
                {| React.className := React.className_string "cell-outer" |}
                eq_refl eq_refl) as (Hclick & Hkey & Hdouble).
  split; [exact Hclick | split; [exact Hkey | split]].
  - exact (Hdouble (Sample.clickOn "image-button-image")).
  - exact (Hdouble {| React.nativeEvent := {| React.target := None |} |}).
Defined.

Lemma submitCell_empty_noop_sample :
  @concatMultilineStringInput Sample.host
    Sample.emptyCodeCell.(props).(cellVM).(cell).(data).(source) = ""
  /\ effects (@submitCell Sample.host None MoveOp.select) Sample.emptyCodeCell = [].
Proof.
  split; [reflexivity | ].
  apply (@submitCell_empty_noop Sample.host Sample.emptyCodeCell MoveOp.select).
  reflexivity.
Defined.

(* --------------------------------------------------------------------- *)
(** ** Markup *)
(* --------------------------------------------------------------------- *)

(** C8, as stated, fails: a [messages] cell is neither code nor markdown,
    and [render] answers with the information messages, not the wrapper. *)
Lemma render_messages_cell :
  Sample.messagesCell.(props).(cellVM).(cell).(data).(cell_type) <> CellType.code
  /\ Sample.messagesCell.(props).(cellVM).(cell).(data).(cell_type)
     <> CellType.markdown
  /\ JSX.isCellWrapper (@render Sample.host Sample.messagesCell) = false
  /\ @render Sample.host Sample.messagesCell
     = JSX.InformationMessages ["Connected to kernel"].
Proof. repeat split; discriminate. Qed.

Section Markup.
Context `{Imports}.

Lemma renderNormalCell_isCellWrapper (this : NativeCell) :
  JSX.isCellWrapper (renderNormalCell this) = true.
Proof.
  unfold renderNormalCell.
  destruct (editable (cellVM (props this))), (isSelected this), (isFocused this);
    reflexivity.
Qed.

(** C8, amended.  A cell is code, markdown, raw or messages; [render]
    produces the normal cell wrapper exactly for the cells that are not
    [messages] cells, and the information messages for those. *)
Theorem render_wrapper_unless_messages (this : NativeCell) :
  (JSX.isCellWrapper (render this) = true <->
   this.(props).(cellVM).(cell).(data).(cell_type) <> CellType.messages)
  /\ (this.(props).(cellVM).(cell).(data).(cell_type) = CellType.messages <->
      render this
      = JSX.InformationMessages this.(props).(cellVM).(cell).(data).(messages)).
Proof.
  pose proof (renderNormalCell_isCellWrapper this) as Hw.
  unfold render.
  destruct (cell_type (data (cell (cellVM (props this))))); split; split;
    try (intros _; assumption); try discriminate; try congruence;
    try reflexivity.
  all: intros E; rewrite E in Hw; discriminate.
Qed.

End Markup.

(* --------------------------------------------------------------------- *)
(** ** The debugger error *)
(* --------------------------------------------------------------------- *)

Section DebuggerError.
Import JupyterDebuggerNotInstalledError.
Variable jupyterDebuggerNotInstalledError : string.

(** C10.  The constructor sets the message to the one given when it is
    given and not empty, and to the localized default when it is omitted
    or empty. *)
Theorem constructor_message (given : option string) :
  (forall m, given = Some m -> m <> "" ->
        (constructor jupyterDebuggerNotInstalledError given).(message) = m)
  /\ (given = None \/ given = Some "" ->
      (constructor jupyterDebuggerNotInstalledError given).(message)
      = jupyterDebuggerNotInstalledError).
Proof.
  unfold constructor, truthy. split.
  - intros m -> Hne. simpl.
    destruct (String.eqb_spec m ""); [contradiction | reflexivity].
  - intros [-> | ->]; reflexivity.
Qed.

End DebuggerError.

Lemma constructor_message_sample :
  (JupyterDebuggerNotInstalledError.constructor "Debugger missing" (Some "ptvsd"))
    .(JupyterDebuggerNotInstalledError.message) = "ptvsd"
  /\ (JupyterDebuggerNotInstalledError.constructor "Debugger missing" None)
       .(JupyterDebuggerNotInstalledError.message) = "Debugger missing".
Proof.
  split.
  - apply (proj1 (constructor_message "Debugger missing" (Some "ptvsd")) "ptvsd").
    + reflexivity.
    + discriminate.
  - apply (proj2 (constructor_message "Debugger missing" None)).
    left. reflexivity.
Defined.

(* ===================================================================== *)
(** * Further properties of the component *)
(* ===================================================================== *)

(* --------------------------------------------------------------------- *)
(** ** Key sequences, updates and the rows of the table *)
(* --------------------------------------------------------------------- *)

Section KeyboardMore.
Context `{Imports}.

(** X1.  [keyDownInput] touches nothing of the component but the last
    key: props and both refs are left as they were, and the last key is
    the key of the event, whichever row of the table was taken. *)
Theorem keyDownInput_frame (this : NativeCell) (cid : string) (e : IKeyboardEvent) :
  let this' := after (keyDownInput cid e) this in
  this'.(props) = this.(props)
  /\ this'.(inputRef) = this.(inputRef)
  /\ this'.(wrapperRef) = this.(wrapperRef)
  /\ this'.(lastKeyPressed) = Some e.(code).
Proof.
  destruct e as [c sh ct me al ei]. open_handlers. cbn.
  key_split c; run; split_ifs; repeat split; congruence.
Qed.

(** X2.  The [d] row: [deleteCell] is dispatched exactly when the key is
    [d], the last key recorded is [d] and the cell is selected without
    focus; the press then stops the event, deletes the cell it was given
    and sends [DeleteCell]. *)
Theorem keyDownInput_delete_row (this : NativeCell) (cid : string) (e : IKeyboardEvent) :
  (deletesCell (effects (keyDownInput cid e) this) = true <->
   e.(code) = "d" /\ this.(lastKeyPressed) = Some "d"
   /\ isFocused this = false /\ isSelected this = true)
  /\ (deletesCell (effects (keyDownInput cid e) this) = true ->
      effects (keyDownInput cid e) this
      = [stopPropagation;
         dispatch (actionCreators.deleteCell cid);
         dispatch (actionCreators.sendCommand NativeCommandType.DeleteCell keyboard)]).
Proof.
  split; [apply keyDownInput_deletes_iff | ].
  intros Hd. apply keyDownInput_deletes_iff in Hd as (Hc & Hk & Hf & Hs).
  destruct e as [c sh ct me al ei]. simpl in Hc. subst c.
  open_handlers. cbn. rewrite Hk, Hf, Hs. reflexivity.
Qed.


Lemma keyDownInput_keeps_props (this : NativeCell) (cid : string) (e : IKeyboardEvent) :
  (after (keyDownInput cid e) this).(props) = this.(props).
Proof.
  destruct e as [c sh ct me al ei]. open_handlers. cbn.
  key_split c; run; split_ifs; reflexivity.
Qed.

Lemma keyDownInput_d_after_d (this : NativeCell) (cid : string) (e : IKeyboardEvent) :
  e.(code) = "d" -> this.(lastKeyPressed) = Some "d" ->
  isFocused this = false -> isSelected this = true ->
  dispatched (effects (keyDownInput cid e) this)
  = [actionCreators.deleteCell cid;
     actionCreators.sendCommand NativeCommandType.DeleteCell keyboard].
Proof.
  destruct e as [c sh ct me al ei]. simpl. intros -> Hk Hf Hs.
  open_handlers. cbn. rewrite Hk, Hf, Hs. reflexivity.
Qed.

(** X3.  Two [d] presses in a row on a selected cell without focus
    delete it: whatever the last key was before and whatever else the two
    events carry, the second press dispatches [deleteCell] and
    [DeleteCell]. *)
Theorem keyDownInput_d_twice_deletes (this : NativeCell) (cid : string)
    (e1 e2 : IKeyboardEvent) :
  e1.(code) = "d" -> e2.(code) = "d" ->
  isFocused this = false -> isSelected this = true ->
  dispatched (effects (keyDownInput cid e2) (after (keyDownInput cid e1) this))
  = [actionCreators.deleteCell cid;
     actionCreators.sendCommand NativeCommandType.DeleteCell keyboard].
Proof.
  intros H1 H2 Hf Hs. apply keyDownInput_d_after_d.
  - exact H2.
  - rewrite keyDownInput_records_key. now rewrite H1.
  - unfold isFocused in *. now rewrite keyDownInput_keeps_props.
  - unfold isSelected in *. now rewrite keyDownInput_keeps_props.
Qed.

(** X4.  A key other than [d] breaks the sequence: the press that follows
    it never dispatches [deleteCell]. *)
Theorem keyDownInput_no_delete_after_other_key (this : NativeCell) (cid cid' : string)
    (e1 e2 : IKeyboardEvent) :
  e1.(code) <> "d" ->
  deletesCell (effects (keyDownInput cid' e2) (after (keyDownInput cid e1) this)) = false.
Proof.
  intros Hne.
  destruct (deletesCell _) eqn:Hd; [ | reflexivity].
  apply keyDownInput_deletes_iff in Hd as (_ & Hk & _).
  rewrite keyDownInput_records_key in Hk. congruence.
Qed.

(** X5.  [componentDidUpdate] calls no action creator, keeps the props
    and clears the last key, so that the first key press after an update
    never deletes the cell. *)
Theorem componentDidUpdate_clears_key (this : NativeCell) (prevProps : INativeCellProps) :
  let this' := after (componentDidUpdate prevProps) this in
  this'.(lastKeyPressed) = None
  /\ this'.(props) = this.(props)
  /\ dispatched (effects (componentDidUpdate prevProps) this) = []
  /\ forall cid e, deletesCell (effects (keyDownInput cid e) this') = false.
Proof.
  assert (Hk : (after (componentDidUpdate prevProps) this).(lastKeyPressed) = None).
  { unfold after, componentDidUpdate, giveFocus. run. split_ifs; reflexivity. }
  cbv zeta. split; [exact Hk | ]. split; [ | split].
  - unfold after, componentDidUpdate, giveFocus. run. split_ifs; reflexivity.
  - unfold effects, componentDidUpdate, giveFocus. run. split_ifs; reflexivity.
  - intros cid e. destruct (deletesCell _) eqn:Hd; [ | reflexivity].
    apply keyDownInput_deletes_iff in Hd as (_ & Hd & _). congruence.
Qed.

(** X6.  [componentDidUpdate] focuses the wrapper exactly when the cell
    has just become selected, is not focused, and the wrapper is mounted and
    does not hold the active element already. *)
Theorem componentDidUpdate_focus_iff (this : NativeCell) (prevProps : INativeCellProps) :
  In focus (effects (componentDidUpdate prevProps) this) <->
  this.(props).(cellVM).(selected) = true
  /\ prevProps.(cellVM).(selected) = false
  /\ this.(props).(cellVM).(focused) = false
  /\ exists current, this.(wrapperRef) = Some current
                     /\ current.(containsActiveElement) = false.
Proof.
  unfold effects, componentDidUpdate, giveFocus. run.
  destruct (selected (cellVM (props this))), (selected (cellVM prevProps)),
    (focused (cellVM (props this))); run;
    try (split; [intros [] | intros (? & ? & ? & _); discriminate]).
  destruct (wrapperRef this) as [current | ]; run.
  - destruct (containsActiveElement current) eqn:Hc, (hasScrollIntoView current); run.
    all: split; [ intros Hin | intros (_ & _ & _ & w & [= <-] & Hw) ].
    all: try (repeat split; try reflexivity; exists current; split; [reflexivity | assumption]).
    all: try congruence.
    all: try (simpl in Hin; intuition discriminate).
    all: simpl; auto.
  - split; [intros [] | intros (_ & _ & _ & w & Hw & _); discriminate].
Qed.

(** X7.  In a focused cell only the arrows (and [k], [j]), [s], [Escape]
    and [Enter] can do anything: every other key, the one-letter commands
    included, is left to the editor (no call, no [stopPropagation]). *)
Theorem keyDownInput_focused_inert (this : NativeCell) (cid : string) (e : IKeyboardEvent) :
  isFocused this = true ->
  oneOf ["ArrowUp"; "k"; "ArrowDown"; "j"; "s"; "Escape"; "Enter"] e.(code) = false ->
  effects (keyDownInput cid e) this = [].
Proof.
  destruct e as [c sh ct me al ei]. simpl. intros Hf Hk.
  open_handlers. cbn. rewrite Hf.
  key_split c; run; try (cbn in Hk; discriminate Hk); split_ifs;
    first [reflexivity | exfalso; rewrite ?andb_false_r in *; simpl in *; discriminate].
Qed.

(** X8.  While the suggest widget of a focused cell is open, the arrows
    and [Escape] are inert too: only [s] and [Enter] are handled. *)
Theorem keyDownInput_suggesting_inert (this : NativeCell) (cid : string)
    (e : IKeyboardEvent) (info : EditorInfo) :
  isFocused this = true ->
  e.(editorInfo) = Some info -> info.(isSuggesting) = true ->
  oneOf ["s"; "Enter"] e.(code) = false ->
  effects (keyDownInput cid e) this = [].
Proof.
  destruct e as [c sh ct me al ei]. simpl. intros Hf -> Hs Hk.
  open_handlers. cbn. rewrite Hf, Hs.
  key_split c; run; try (cbn in Hk; discriminate Hk); split_ifs;
    first [reflexivity | exfalso; rewrite ?andb_false_r in *; simpl in *; discriminate].
Qed.

End KeyboardMore.

Ltac absurd_or_refl :=
  first [reflexivity | exfalso; rewrite ?andb_false_r in *; simpl in *; discriminate].

Section KeyboardRows.
Context `{Imports}.

(** X9.  The arrow rows.  [ArrowUp] or [k] leaves the cell (dispatching
    [arrowUp] with this cell's id and current code, then [ArrowUp]) when the
    cell is not focused, or when the editor is on its first line, not
    suggesting and shift is up; [ArrowDown] or [j] likewise with the last
    line; otherwise nothing is dispatched. *)
Theorem keyDownInput_arrows (this : NativeCell) (cid : string) (e : IKeyboardEvent) :
  let inEditor (onEdge : EditorInfo -> bool) :=
    match e.(editorInfo) with
    | Some info => negb info.(isSuggesting) && onEdge info && negb e.(shiftKey)
    | None => false
    end in
  (oneOf ["ArrowUp"; "k"] e.(code) = true ->
   dispatched (effects (keyDownInput cid e) this)
   = if negb (isFocused this) || inEditor isFirstLine
     then [actionCreators.arrowUp this.(props).(cellVM).(cell).(id) (getCurrentCode this);
           actionCreators.sendCommand NativeCommandType.ArrowUp keyboard]
     else [])
  /\ (oneOf ["ArrowDown"; "j"] e.(code) = true ->
      dispatched (effects (keyDownInput cid e) this)
      = if negb (isFocused this) || inEditor isLastLine
        then [actionCreators.arrowDown this.(props).(cellVM).(cell).(id) (getCurrentCode this);
              actionCreators.sendCommand NativeCommandType.ArrowDown keyboard]
        else []).
Proof.
  destruct e as [c sh ct me al ei]. cbn. unfold cellId.
  split; intros Hk; open_handlers; cbn in *.
  all: key_split c; run; try discriminate Hk.
  all: destruct (isFocused this), ei as [[[ | ] [ | ] [ | ] dr ctn] | ], sh;
    reflexivity.
Qed.

(** X10.  The [s] row: [save] is called on meta+s under OSX and on ctrl+s
    under any other system, focused or not; nothing else happens (no
    command is sent and the event is not stopped). *)
Theorem keyDownInput_save (this : NativeCell) (cid : string) (e : IKeyboardEvent) :
  e.(code) = "s" ->
  effects (keyDownInput cid e) this
  = match getOSType with
    | OSType.OSX => if e.(metaKey) then [dispatch actionCreators.save] else []
    | _ => if e.(ctrlKey) then [dispatch actionCreators.save] else []
    end.
Proof.
  destruct e as [c sh ct me al ei]. simpl. intros ->.
  open_handlers. cbn. destruct getOSType, ct, me; reflexivity.
Qed.

Lemma executesCell_bool (this : NativeCell) (cid : string) (e : IKeyboardEvent) :
  executesCell (effects (keyDownInput cid e) this)
  = String.eqb e.(code) "Enter"
    && (e.(shiftKey) || e.(ctrlKey) || e.(altKey))
    && negb (String.eqb
               match e.(editorInfo) with
               | Some info => info.(contents)
               | None => concatMultilineStringInput
                           this.(props).(cellVM).(cell).(data).(source)
               end "").
Proof.
  destruct e as [c sh ct me al ei]. unfold executesCell. open_handlers.
  unfold truthy. cbn.
  key_split c; run.
  all: try (rewrite ?E, ?E0, ?E1, ?E2, ?E3, ?E4, ?E5, ?E6, ?E7, ?E8, ?E9).
  all: try match goal with
       | Hne : ?c <> "Enter" |- _ =>
           apply String.eqb_neq in Hne; rewrite Hne
       end.
  all: cbn.
  all: try (destruct sh, ct, al; cbn).
  all: try (destruct ei as [info | ]; cbn).
  all: split_ifs; try reflexivity.
Qed.

(** X11.  [keyDownInput] calls [executeCell] exactly on [Enter] with
    shift, ctrl or alt held and a non-empty content: no other key runs a
    cell, and plain [Enter] never does. *)
Theorem keyDownInput_executes_iff (this : NativeCell) (cid : string) (e : IKeyboardEvent) :
  executesCell (effects (keyDownInput cid e) this) = true <->
  e.(code) = "Enter"
  /\ (e.(shiftKey) = true \/ e.(ctrlKey) = true \/ e.(altKey) = true)
  /\ match e.(editorInfo) with
     | Some info => info.(contents)
     | None => concatMultilineStringInput this.(props).(cellVM).(cell).(data).(source)
     end <> "".
Proof.
  rewrite executesCell_bool, !andb_true_iff, !orb_true_iff, negb_true_iff,
    String.eqb_eq, String.eqb_neq. tauto.
Qed.

(** X12.  [Enter] without shift: with ctrl it runs the cell in place (move
    ['none'], command [Run]); with alt and no ctrl it runs and adds (move
    ['add'], command [RunAndAdd]).  An empty content is not executed, the
    command is sent all the same. *)
Theorem keyDownInput_ctrl_alt_enter (this : NativeCell) (cid : string) (e : IKeyboardEvent) :
  e.(code) = "Enter" -> e.(shiftKey) = false ->
  e.(ctrlKey) = true \/ e.(altKey) = true ->
  let content :=
    match e.(editorInfo) with
    | Some info => info.(contents)
    | None => concatMultilineStringInput this.(props).(cellVM).(cell).(data).(source)
    end in
  dispatched (effects (keyDownInput cid e) this)
  = (if String.eqb content "" then []
     else [actionCreators.executeCell this.(props).(cellVM).(cell).(id) content
             (if e.(ctrlKey) then MoveOp.none else MoveOp.add)])
    ++ [actionCreators.sendCommand
          (if e.(ctrlKey) then NativeCommandType.Run else NativeCommandType.RunAndAdd)
          keyboard].
Proof.
  destruct e as [c sh ct me al ei]. simpl. intros -> -> Hmod.
  open_handlers. unfold truthy, cellId. run.
  destruct ct, al; try (destruct Hmod; discriminate); run.
  all: destruct ei as [info | ]; run;
    match goal with
    | |- context [String.eqb ?content ""] => destruct (String.eqb content "")
    end; reflexivity.
Qed.

(** X13.  Plain [Enter] focuses a selected cell without focus when the
    event comes from the cell itself (no editor info), and does nothing
    otherwise. *)
Theorem keyDownInput_plain_enter (this : NativeCell) (cid : string) (e : IKeyboardEvent) :
  e.(code) = "Enter" ->
  e.(shiftKey) = false -> e.(ctrlKey) = false -> e.(altKey) = false ->
  dispatched (effects (keyDownInput cid e) this)
  = match e.(editorInfo) with
    | None =>
        if negb (isFocused this) && isSelected this
        then [actionCreators.focusCell this.(props).(cellVM).(cell).(id) CursorPos.Current]
        else []
    | Some _ => []
    end.
Proof.
  destruct e as [c sh ct me al ei]. simpl. intros -> -> -> ->.
  open_handlers. unfold cellId. run.
  destruct (isFocused this), ei, (isSelected this); reflexivity.
Qed.

(** X14.  Every command [keyDownInput] sends is reported as coming from
    the keyboard. *)
Theorem keyDownInput_commands_from_keyboard (this : NativeCell) (cid : string)
    (e : IKeyboardEvent) :
  Forall (fun src => src = keyboard)
    (commandSources (dispatched (effects (keyDownInput cid e) this))).
Proof.
  destruct e as [c sh ct me al ei]. open_handlers. cbn.
  key_split c; run; split_ifs; repeat constructor.
Qed.

(** X15.  Whenever [keyDownInput] does anything but call [save], the first
    thing it does is stop the propagation of the event. *)
Theorem keyDownInput_stops_propagation_first (this : NativeCell) (cid : string)
    (e : IKeyboardEvent) :
  match effects (keyDownInput cid e) this with
  | [] => True
  | [dispatch actionCreators.save] => True
  | first :: _ => first = stopPropagation
  end.
Proof.
  destruct e as [c sh ct me al ei]. open_handlers. cbn.
  key_split c; run; split_ifs; exact I || reflexivity.
Qed.

(** X16.  [y], [m], [l], [o] and [d] need a selected cell: on a cell that
    is not selected they do nothing. *)
Theorem keyDownInput_needs_selection (this : NativeCell) (cid : string) (e : IKeyboardEvent) :
  isSelected this = false ->
  oneOf ["y"; "m"; "l"; "o"; "d"] e.(code) = true ->
  effects (keyDownInput cid e) this = [].
Proof.
  destruct e as [c sh ct me al ei]. simpl. intros Hs Hk.
  open_handlers. cbn in *. rewrite Hs.
  key_split c; run; try discriminate Hk; rewrite ?andb_false_r; run;
    split_ifs; absurd_or_refl.
Qed.

(** X17.  Every action [keyDownInput] dispatches that names a cell names
    the id it was given or this cell's own id. *)
Theorem keyDownInput_names_this_cell (this : NativeCell) (cid : string)
    (e : IKeyboardEvent) :
  Forall (fun a => match actionCellId a with
                   | Some c => c = cid \/ c = this.(props).(cellVM).(cell).(id)
                   | None => True
                   end)
    (dispatched (effects (keyDownInput cid e) this)).
Proof.
  destruct e as [c sh ct me al ei]. open_handlers. unfold cellId. cbn.
  key_split c; run; split_ifs;
    repeat first [apply Forall_nil | apply Forall_cons]; cbn; auto.
Qed.

(** X18.  The wrapper ignores [Tab] and every key of a focused cell: the
    log is empty and the component, last key included, is unchanged. *)
Theorem onOuterKeyDown_ignored (this : NativeCell) (event : React.KeyboardEvent) :
  event.(React.key) = "Tab" \/ isFocused this = true ->
  effects (onOuterKeyDown event) this = []
  /\ after (onOuterKeyDown event) this = this.
Proof.
  intros Hc. unfold effects, after, onOuterKeyDown. run.
  destruct (String.eqb_spec (React.key event) "Tab") as [E | E], (isFocused this);
    cbn; try (split; reflexivity).
  destruct Hc; [contradiction | discriminate].
Qed.

(** X19.  Keys handled by the wrapper act on this cell only: every action
    that names a cell names this one, and the props are kept. *)
Theorem onOuterKeyDown_acts_on_this_cell (this : NativeCell) (event : React.KeyboardEvent) :
  Forall (fun a => match actionCellId a with
                   | Some c => c = this.(props).(cellVM).(cell).(id)
                   | None => True
                   end)
    (dispatched (effects (onOuterKeyDown event) this))
  /\ (after (onOuterKeyDown event) this).(props) = this.(props).
Proof.
  destruct event as [k sh ct me al].
  unfold onOuterKeyDown. open_handlers. unfold cellId. run.
  destruct (String.eqb k "Tab"), (isFocused this) eqn:Hf; cbn;
    try (split; [constructor | reflexivity]).
  key_split k; run; rewrite ?Hf; run; split_ifs;
    (split; [repeat first [apply Forall_nil | apply Forall_cons]; cbn; auto
            | reflexivity]).
Qed.

End KeyboardRows.

Section MouseMore.

(** X20.  A click with no target, or on an element whose class names
    [image-button], is ignored: nothing is logged and the component, last
    key included, is unchanged. *)
Theorem onMouseClick_ignored (this : NativeCell) (ev : React.MouseEvent) :
  match ev.(React.nativeEvent).(React.target) with
  | None => True
  | Some elem => isImageButtonElement elem = true
  end ->
  effects (onMouseClick ev) this = []
  /\ after (onMouseClick ev) this = this.
Proof.
  destruct ev as [[[[[s | v]] | ]]]; unfold isImageButtonElement; simpl; intros Hb;
    open_handlers; run; try rewrite Hb; try discriminate; split; reflexivity.
Qed.

End MouseMore.

Section MouseThenKey.
Context `{Imports}.

(** X21.  A click that selects the cell breaks a [d] sequence: the key
    press that follows never dispatches [deleteCell]. *)
Theorem onMouseClick_then_key_never_deletes (this : NativeCell) (ev : React.MouseEvent)
    (elem : React.HTMLElement) (cid : string) (e : IKeyboardEvent) :
  ev.(React.nativeEvent).(React.target) = Some elem ->
  isImageButtonElement elem = false ->
  deletesCell (effects (keyDownInput cid e) (after (onMouseClick ev) this)) = false.
Proof.
  intros Ht Hb.
  destruct (deletesCell _) eqn:Hd; [ | reflexivity].
  apply keyDownInput_deletes_iff in Hd as (_ & Hk & _).
  destruct ev as [[tgt]]. simpl in Ht. subst tgt.
  unfold isImageButtonElement in Hb. unfold after, onMouseClick in Hk.
  revert Hk. run. destruct (React.className elem); [rewrite Hb | ]; run; discriminate.
Qed.

(** X22.  [getCurrentCode] is the editor contents when the input is open
    and not empty, and the concatenated source when there is no input; it
    is empty only if the concatenated source is. *)
Theorem getCurrentCode_fallback (this : NativeCell) :
  (getCurrentCode this = ""
   -> concatMultilineStringInput this.(props).(cellVM).(cell).(data).(source) = "")
  /\ (forall current text,
        this.(inputRef) = Some current -> current.(getContents) = Some text ->
        text <> "" -> getCurrentCode this = text)
  /\ (this.(inputRef) = None
      -> getCurrentCode this
         = concatMultilineStringInput this.(props).(cellVM).(cell).(data).(source)).
Proof.
  unfold getCurrentCode, truthy. repeat split.
  - destruct (inputRef this) as [[[text | ]] | ]; cbn; try tauto.
    destruct (String.eqb_spec text ""); cbn; tauto.
  - intros current text -> -> Hne. destruct (String.eqb_spec text ""); cbn; tauto.
  - intros ->. reflexivity.
Qed.

End MouseThenKey.

(* --------------------------------------------------------------------- *)
(** ** The markup tree, re-rendering and the error *)
(* --------------------------------------------------------------------- *)

Ltac open_render :=
  unfold render, renderNormalCell, renderInput, renderOutput, renderControls,
    renderMiddleToolbar, renderNavbar, renderAddDivider, renderCollapseBar, image,
    shouldRenderInput, shouldRenderOutput, shouldRenderCodeEditor,
    shouldRenderMarkdownEditor, isShowingMarkdownEditor, hasOutput,
    isCodeCell, isMarkdownCell, isSelected, isFocused, getCell.

Ltac tree_ifs :=
  repeat match goal with
    | |- context [if ?b then _ else _] => destruct b eqn:?; cbn
    | |- context [match ?x with _ => _ end] => destruct x eqn:?; cbn
    end.

Section MarkupMore.
Context `{Imports}.

(** X23.  The class list of the wrapper tells the state of the cell:
    [cell-wrapper-focused] is there exactly when the cell is focused,
    [cell-wrapper-selected] exactly when it is selected without focus (never
    both), [cell-wrapper-noneditable] exactly when it is not editable. *)
Theorem renderNormalCell_wrapper_classes (this : NativeCell) :
  includes "cell-wrapper-focused" (rootClass (renderNormalCell this)) = isFocused this
  /\ includes "cell-wrapper-selected" (rootClass (renderNormalCell this))
     = isSelected this && negb (isFocused this)
  /\ includes "cell-wrapper-noneditable" (rootClass (renderNormalCell this))
     = negb this.(props).(cellVM).(editable).
Proof.
  unfold renderNormalCell.
  destruct (editable (cellVM (props this))), (isSelected this), (isFocused this);
    repeat split; reflexivity.
Qed.

(** X24.  A markdown cell shows its editor or its output, never both: the
    editor exactly when focused, the output exactly when not. *)
Theorem render_markdown_editor_xor_output (this : NativeCell) :
  this.(props).(cellVM).(cell).(data).(cell_type) = CellType.markdown ->
  anywhere isCellInput (render this) = this.(props).(cellVM).(focused)
  /\ anywhere isCellOutput (render this) = negb this.(props).(cellVM).(focused).
Proof.
  intros Hmd. open_render. rewrite Hmd.
  destruct (focused (cellVM (props this))); cbn; split; tree_ifs; reflexivity.
Qed.


(** X25.  A code cell shows its editor exactly when its input block is
    shown or it is editable, and its output exactly when it is finished,
    failed or executing, has at least one output, and the output is not
    hidden. *)
Theorem render_code_editor_and_output (this : NativeCell) :
  this.(props).(cellVM).(cell).(data).(cell_type) = CellType.code ->
  anywhere isCellInput (render this)
  = this.(props).(cellVM).(inputBlockShow) || this.(props).(cellVM).(editable)
  /\ anywhere isCellOutput (render this)
     = match this.(props).(cellVM).(cell).(state),
             this.(props).(cellVM).(cell).(data).(outputs),
             this.(props).(cellVM).(hideOutput) with
       | (CellState.finished | CellState.error | CellState.executing),
         Some (_ :: _), (None | Some false) => true
       | _, _, _ => false
       end.
Proof.
  intros Hcode. open_render. rewrite Hcode. cbn.
  destruct (inputBlockShow (cellVM (props this))), (editable (cellVM (props this))),
    (state (cell (cellVM (props this)))),
    (outputs (data (cell (cellVM (props this))))) as [[ | o os] | ],
    (hideOutput (cellVM (props this))) as [[ | ] | ];
    cbn; split; tree_ifs; reflexivity.
Qed.

(** X26.  A raw cell shows neither editor nor output and gets no middle
    toolbar: the only things to click are the navbar and, unless it is the
    last cell, the add-cell line. *)
Theorem render_raw_cell_bare (this : NativeCell) :
  this.(props).(cellVM).(cell).(data).(cell_type) = CellType.raw ->
  anywhere isCellInput (render this) = false
  /\ anywhere isCellOutput (render this) = false
  /\ clickHandlers (render this)
     = clickHandlers (renderNavbar this)
       ++ (if this.(props).(lastCell) then [] else [addNewCell]).
Proof.
  intros Hraw. open_render. rewrite Hraw. cbn.
  destruct (lastCell (props this)); cbn; repeat split; tree_ifs; reflexivity.
Qed.

(** X27.  Nothing in the markup of the last cell adds a cell: no add-cell
    line and no add button in the navbar. *)
Theorem render_last_cell_no_add (this : NativeCell) :
  this.(props).(lastCell) = true ->
  anywhere isAddCellLine (render this) = false
  /\ anywhere isNavbarAddButton (render this) = false.
Proof.
  intros Hlast. open_render. rewrite Hlast.
  destruct (cell_type (data (cell (cellVM (props this))))),
    (focused (cellVM (props this))); cbn; split; tree_ifs; reflexivity.
Qed.

(** X28.  Every button and add-cell line of the markup, whenever it is
    clicked, sends exactly one command, reported as coming from the mouse;
    the one exception is the gather button, which only calls [gatherCell]
    for this cell. *)
Theorem render_click_handlers_from_mouse (this : NativeCell) :
  Forall (fun h : Handler unit =>
            forall now : NativeCell,
              commandSources (dispatched (effects h now)) = [mouse]
              \/ dispatched (effects h now)
                 = [actionCreators.gatherCell this.(props).(cellVM).(cell).(id)])
    (clickHandlers (render this)).
Proof.
  open_render. unfold addNewCell.
  destruct (cell_type (data (cell (cellVM (props this))))); cbn.
  all: tree_ifs.
  all: repeat first [apply Forall_nil | apply Forall_cons].
  all: intros now; unfold effects, runAndMove, submitCell; run.
  all: try (right; reflexivity).
  all: left; tree_ifs; reflexivity.
Qed.

End MarkupMore.

Section Rerender.
Import JS JSFacts.

Lemma deep_equal_sym (a : Value) : forall b, deep_equal a b -> deep_equal b a.
Proof.
  induction a as [ | | x | n | | s | r | xs IH | fa IH ] using Value_nested_ind;
    intros b Hab; inversion Hab; subst; try constructor.
  - clear Hab.
    match goal with Hf : Forall2 _ _ _ |- _ => rename Hf into Hall end.
    revert IH. induction Hall as [ | x y xs' ys' Hxy _ IHall ]; intros IH.
    + constructor.
    + inversion IH; subst. constructor; auto.
  - intros k. symmetry. auto.
  - intros k v w Hv Hw. rewrite Forall_forall in IH.
    apply (IH _ (get_Some_In _ _ _ Hw)). simpl. eauto.
Qed.

(** X29.  Props that did not change never ask for a re-render, and the
    answer does not depend on which of the two props is the current one. *)
Theorem shouldComponentUpdate_same_props (props nextProps : Value) :
  wellFormed props = true -> wellFormed nextProps = true ->
  shouldComponentUpdate props props = false
  /\ shouldComponentUpdate props nextProps = shouldComponentUpdate nextProps props.
Proof.
  intros Wa Wb. unfold shouldComponentUpdate. split.
  - now rewrite fastDeepEqual_refl.
  - f_equal.
    pose proof (fastDeepEqual_deep_equal props nextProps Wa Wb) as Hab.
    pose proof (fastDeepEqual_deep_equal nextProps props Wb Wa) as Hba.
    destruct (fastDeepEqual props nextProps), (fastDeepEqual nextProps props);
      try reflexivity.
    + assert (Hd : deep_equal nextProps props) by (apply deep_equal_sym; now apply Hab).
      apply Hba in Hd. discriminate.
    + assert (Hd : deep_equal props nextProps) by (apply deep_equal_sym; now apply Hba).
      apply Hab in Hd. discriminate.
Qed.

End Rerender.

Section ErrorMore.
Import JupyterDebuggerNotInstalledError.

(** X30.  With a non-empty localized default, the error never has an
    empty message. *)
Theorem constructor_message_never_empty (fallback : string) (given : option string) :
  fallback <> "" ->
  (constructor fallback given).(message) <> "".
Proof.
  intros Hne. unfold constructor, truthy.
  destruct given as [m | ]; simpl; [ | exact Hne].
  destruct (String.eqb_spec m ""); simpl; assumption.
Qed.

End ErrorMore.

(* --------------------------------------------------------------------- *)
(** ** The further statements at sample cells *)
(* --------------------------------------------------------------------- *)

Lemma keyDownInput_d_twice_deletes_sample :
  dispatched
    (effects (@keyDownInput Sample.host "cell-1" (Sample.press "d"))
       (after (@keyDownInput Sample.host "cell-1" (Sample.press "d"))
          Sample.selectedCodeCell))
  = [actionCreators.deleteCell "cell-1";
     actionCreators.sendCommand NativeCommandType.DeleteCell keyboard].
Proof.
  apply (@keyDownInput_d_twice_deletes Sample.host Sample.selectedCodeCell "cell-1"
           (Sample.press "d") (Sample.press "d")); reflexivity.
Defined.

Lemma keyDownInput_no_delete_after_other_key_sample :
  (Sample.press "x").(code) <> "d"
  /\ deletesCell
       (effects (@keyDownInput Sample.host "cell-1" (Sample.press "d"))
          (after (@keyDownInput Sample.host "cell-1" (Sample.press "x"))
             MoreSamples.lastCodeCell)) = false.
Proof.
  split; [discriminate | ].
  apply (@keyDownInput_no_delete_after_other_key Sample.host MoreSamples.lastCodeCell
           "cell-1" "cell-1" (Sample.press "x") (Sample.press "d")).
  discriminate.
Defined.

Lemma keyDownInput_focused_inert_sample :
  effects (@keyDownInput Sample.host "cell-1" (Sample.press "d"))
    Sample.focusedCodeCell = [].
Proof.
  apply (@keyDownInput_focused_inert Sample.host Sample.focusedCodeCell "cell-1"
           (Sample.press "d")); reflexivity.
Defined.

Lemma keyDownInput_suggesting_inert_sample :
  effects (@keyDownInput Sample.host "cell-1" (MoreSamples.suggesting "ArrowDown"))
    Sample.focusedCodeCell = [].
Proof.
  apply (@keyDownInput_suggesting_inert Sample.host Sample.focusedCodeCell "cell-1"
           (MoreSamples.suggesting "ArrowDown") MoreSamples.suggestOpen); reflexivity.
Defined.

Lemma keyDownInput_save_sample :
  effects (@keyDownInput Sample.host "cell-1" (MoreSamples.pressWith "s" false true false))
    Sample.focusedCodeCell = [dispatch actionCreators.save].
Proof.
  apply (@keyDownInput_save Sample.host Sample.focusedCodeCell "cell-1"
           (MoreSamples.pressWith "s" false true false)).
  reflexivity.
Defined.

Lemma keyDownInput_ctrl_alt_enter_sample :
  dispatched
    (effects (@keyDownInput Sample.host "cell-1"
                (MoreSamples.pressWith "Enter" false true false))
       Sample.selectedCodeCell)
  = [actionCreators.executeCell "cell-1" "print(1)" MoveOp.none;
     actionCreators.sendCommand NativeCommandType.Run keyboard].
Proof.
  apply (@keyDownInput_ctrl_alt_enter Sample.host Sample.selectedCodeCell "cell-1"
           (MoreSamples.pressWith "Enter" false true false));
    [reflexivity | reflexivity | left; reflexivity].
Defined.

Lemma keyDownInput_plain_enter_sample :
  dispatched
    (effects (@keyDownInput Sample.host "cell-1" (Sample.press "Enter"))
       Sample.selectedCodeCell)
  = [actionCreators.focusCell "cell-1" CursorPos.Current].
Proof.
  apply (@keyDownInput_plain_enter Sample.host Sample.selectedCodeCell "cell-1"
           (Sample.press "Enter")); reflexivity.
Defined.

Lemma keyDownInput_needs_selection_sample :
  effects (@keyDownInput Sample.host "cell-1" (Sample.press "m"))
    MoreSamples.unselectedCodeCell = [].
Proof.
  apply (@keyDownInput_needs_selection Sample.host MoreSamples.unselectedCodeCell
           "cell-1" (Sample.press "m")); reflexivity.
Defined.

Lemma onOuterKeyDown_ignored_sample :
  effects (@onOuterKeyDown Sample.host (MoreSamples.outerKey "Tab"))
    Sample.selectedCodeCell = []
  /\ after (@onOuterKeyDown Sample.host (MoreSamples.outerKey "Tab"))
       Sample.selectedCodeCell = Sample.selectedCodeCell.
Proof.
  apply (@onOuterKeyDown_ignored Sample.host Sample.selectedCodeCell
           (MoreSamples.outerKey "Tab")).
  left. reflexivity.
Defined.

Lemma onMouseClick_ignored_sample :
  effects (onMouseClick (Sample.clickOn "image-button-image"))
    MoreSamples.lastCodeCell = []
  /\ after (onMouseClick (Sample.clickOn "image-button-image"))
       MoreSamples.lastCodeCell = MoreSamples.lastCodeCell.
Proof.
  apply (onMouseClick_ignored MoreSamples.lastCodeCell
           (Sample.clickOn "image-button-image")).
  reflexivity.
Defined.

Lemma onMouseClick_then_key_never_deletes_sample :
  deletesCell
    (effects (@keyDownInput Sample.host "cell-1" (Sample.press "d"))
       (after (onMouseClick (Sample.clickOn "cell-outer")) MoreSamples.lastCodeCell))
  = false.
Proof.
  apply (@onMouseClick_then_key_never_deletes Sample.host MoreSamples.lastCodeCell
           (Sample.clickOn "cell-outer")
           {| React.className := React.className_string "cell-outer" |}
           "cell-1" (Sample.press "d")); reflexivity.
Defined.

Lemma render_markdown_editor_xor_output_sample :
  anywhere isCellInput (@render Sample.host MoreSamples.focusedMarkdownCell) = true
  /\ anywhere isCellOutput (@render Sample.host MoreSamples.focusedMarkdownCell) = false.
Proof.
  apply (@render_markdown_editor_xor_output Sample.host MoreSamples.focusedMarkdownCell).
  reflexivity.
Defined.

Lemma render_code_editor_and_output_sample :
  anywhere isCellInput (@render Sample.host Sample.otherwiseDifferentCodeCell) = false
  /\ anywhere isCellOutput (@render Sample.host Sample.otherwiseDifferentCodeCell) = false.
Proof.
  apply (@render_code_editor_and_output Sample.host Sample.otherwiseDifferentCodeCell).
  reflexivity.
Defined.

Lemma render_raw_cell_bare_sample :
  anywhere isCellInput (@render Sample.host MoreSamples.rawCell) = false
  /\ anywhere isCellOutput (@render Sample.host MoreSamples.rawCell) = false.
Proof.
  pose proof (@render_raw_cell_bare Sample.host MoreSamples.rawCell eq_refl)
    as (Hin & Hout & _).
  split; assumption.
Defined.

Lemma render_last_cell_no_add_sample :
  anywhere isAddCellLine (@render Sample.host MoreSamples.lastCodeCell) = false
  /\ anywhere isNavbarAddButton (@render Sample.host MoreSamples.lastCodeCell) = false.
Proof.
  apply (@render_last_cell_no_add Sample.host MoreSamples.lastCodeCell).
  reflexivity.
Defined.

Lemma shouldComponentUpdate_same_props_sample :
  shouldComponentUpdate Sample.propsValue Sample.propsValue = false
  /\ shouldComponentUpdate Sample.propsValue Sample.propsValueReordered
     = shouldComponentUpdate Sample.propsValueReordered Sample.propsValue.
Proof.
  apply (shouldComponentUpdate_same_props Sample.propsValue Sample.propsValueReordered);
    reflexivity.
Defined.

Lemma constructor_message_never_empty_sample :
  (JupyterDebuggerNotInstalledError.constructor "Debugger missing" (Some ""))
    .(JupyterDebuggerNotInstalledError.message) <> "".
Proof.
  apply (constructor_message_never_empty "Debugger missing" (Some "")).
  discriminate.
Defined.
